(** * Tech HVAC sensors: battery, temperature and humidity entities

    A shallow embedding of [custom_components/tech/sensor.py] and the
    properties of its zone classification, entity construction and refresh.

    Python objects are records, attribute assignment is a state update, and
    a raised exception is the [Raise] outcome of a computation.  Calls to
    [_LOGGER.debug] only format their arguments with [%s] and have no effect
    on the values studied here; they are left out. *)

From Stdlib Require Import ZArith List String Ascii Bool Lia QArith.
From Stdlib Require Import DecimalString DecimalZ DecimalPos.
From Stdlib Require Import Floats.SpecFloat.
Import ListNotations.

Open Scope string_scope.
Open Scope list_scope.
Open Scope Z_scope.

(** ** Exceptions and outcomes *)

(** The exceptions that can travel through this module.  [ClientError]
    stands for whatever the remote client raises; its payload is carried
    along untouched. *)
Inductive exn : Type :=
| KeyError (key : Z)
| ZeroDivisionError
| OverflowError
| ClientError (what : string).

Inductive result (A : Type) : Type :=
| Ok (a : A)
| Raise (e : exn).

Arguments Ok {A} a.
Arguments Raise {A} e.

(** A method running on an object of type [S]: it may assign attributes and
    then either returns or raises.  The object is returned in both cases,
    so that assignments made before a [Raise] stay visible. *)
Definition M (S A : Type) : Type := S -> S * result A.

Class Monad (m : Type -> Type) : Type := {
  ret : forall {A}, A -> m A;
  bind : forall {A B}, m A -> (A -> m B) -> m B
}.

Declare Scope monad_scope.
Delimit Scope monad_scope with monad.
Notation "x <- c1 ;; c2" := (bind c1 (fun x => c2))
  (at level 61, c1 at next level, right associativity) : monad_scope.
Notation "c1 ;; c2" := (bind c1 (fun _ => c2))
  (at level 61, right associativity) : monad_scope.
Open Scope monad_scope.

#[export] Instance result_Monad : Monad result := {
  ret := fun A a => Ok a;
  bind := fun A B r k => match r with Ok a => k a | Raise e => Raise e end
}.

#[export] Instance M_Monad (S : Type) : Monad (M S) := {
  ret := fun A a s => (s, Ok a);
  bind := fun A B c k s =>
    match c s with
    | (s', Ok a) => k a s'
    | (s', Raise e) => (s', Raise e)
    end
}.

(** Reading [self], assigning to it, and awaiting a fallible value. *)
Definition get {S} : M S S := fun s => (s, Ok s).
Definition modify {S} (f : S -> S) : M S unit := fun s => (f s, Ok tt).
Definition lift {S A} (r : result A) : M S A := fun s => (s, r).

(** ** Python built-ins used by the module *)

Module Py.

(** A [dict] with integer keys, in insertion order. *)
Definition dict (V : Type) : Type := list (Z * V).

Definition keys {V} (d : dict V) : list Z := List.map fst d.

(** [d[k]] *)
Fixpoint getitem {V} (d : dict V) (k : Z) : result V :=
  match d with
  | [] => Raise (KeyError k)
  | (k', v) :: d' => if k' =? k then Ok v else getitem d' k
  end.

(** A lazy iterator: the outcomes of its successive [next] calls.  An item
    is [Raise e] when producing it raises. *)
Definition iter (A : Type) : Type := list (result A).

(** Iterating a [dict] yields its keys. *)
Definition iter_dict {V} (d : dict V) : iter Z := List.map Ok (keys d).

Definition filter {A} (p : A -> result bool) (it : iter A) : iter A :=
  flat_map (fun item =>
    match item with
    | Raise e => [Raise e]
    | Ok a =>
        match p a with
        | Ok true => [Ok a]
        | Ok false => []
        | Raise e => [Raise e]
        end
    end) it.

Definition map {A B} (f : A -> result B) (it : iter A) : iter B :=
  List.map (fun item => x <- item ;; f x) it.

(** [itertools.chain] *)
Definition chain {A} (its : list (iter A)) : iter A := List.concat its.

(** Running an iterator to its end, as a [for] loop or [list(...)] does:
    the first item that raises ends the loop with that exception. *)
Fixpoint collect {A} (it : iter A) : result (list A) :=
  match it with
  | [] => Ok []
  | item :: rest => x <- item ;; xs <- collect rest ;; ret (x :: xs)
  end.

(** [str] of an [int]. *)
Definition str (z : Z) : string := NilZero.string_of_int (Z.to_int z).

(** [float]: IEEE 754 binary64. *)
Definition prec : Z := 53.
Definition emax : Z := 1024.
Definition float : Type := spec_float.

Definition Z2SF (z : Z) : float :=
  match z with
  | Z0 => S754_zero false
  | Zpos p => S754_finite false p 0
  | Zneg p => S754_finite true p 0
  end.

(** The binary64 value nearest to the exact quotient [a / b], ties to
    even. *)
Definition nearest_quotient (a b : Z) : float :=
  SFdiv prec emax (Z2SF a) (Z2SF b).

(** Quotients of this magnitude or more round to [2^1024], which is not a
    finite binary64 value. *)
Definition overflow_threshold : Z := 2 ^ 1024 - 2 ^ 970.

(** [a / b] on two [int]s: true division.  It raises [ZeroDivisionError]
    for a zero divisor and [OverflowError] when the rounded quotient is
    too large for a float. *)
Definition truediv (a b : Z) : result float :=
  if b =? 0 then Raise ZeroDivisionError
  else if overflow_threshold * Z.abs b <=? Z.abs a then Raise OverflowError
  else Ok (nearest_quotient a b).

(** [v != n] for [v] an [int] or [None]. *)
Definition ne (v : option Z) (n : Z) : bool :=
  match v with
  | Some z => negb (z =? n)
  | None => true
  end.

(** [v is not None] *)
Definition is_not_None {A} (v : option A) : bool :=
  match v with
  | Some _ => true
  | None => false
  end.

(** The exact value of a float, when it is a number, in lowest terms. *)
Definition SF2Q (f : float) : option Q :=
  match f with
  | S754_zero _ => Some 0%Q
  | S754_finite s m e =>
      let v := (inject_Z (Zpos m) * Qpower 2 e)%Q in
      Some (Qred (if s then Qopp v else v))
  | _ => None
  end.

End Py.

(** ** Zone records

    What the remote client returns for a zone: [device["zone"]] and
    [device["description"]].  A field the service sends as [null] is
    [None]. *)

Record Zone : Type := {
  zone_id : Z;
  zone_batteryLevel : option Z;
  zone_currentTemperature : option Z;
  zone_humidity : option Z
}.

Record Description : Type := {
  description_name : string
}.

Record Device : Type := {
  zone : Zone;
  description : Description
}.

(** The remote client.  Each coroutine either returns or raises. *)
Record Api : Type := {
  get_module_zones : string -> result (Py.dict Device);
  get_zone : string -> Z -> result Device
}.

(** ** The three entity classes

    An entity keeps the module [udid], the client, the zone id and the
    prefix of its unique id, all assigned once by the constructor, and the
    zone name and the last value read, assigned by [update_properties]. *)

Module TechBatterySensor.

Record t : Type := {
  _udid : string;
  _api : Api;
  _id : Z;
  _unique_id : string;
  _name : string;
  _attr_native_value : option Z
}.

Definition set_name (v : string) (self : t) : t :=
  {| _udid := _udid self; _api := _api self; _id := _id self;
     _unique_id := _unique_id self; _name := v;
     _attr_native_value := _attr_native_value self |}.

Definition set_attr_native_value (v : option Z) (self : t) : t :=
  {| _udid := _udid self; _api := _api self; _id := _id self;
     _unique_id := _unique_id self; _name := _name self;
     _attr_native_value := v |}.

Definition update_properties (device : Device) : M t unit :=
  modify (set_name (description_name (description device))) ;;
  modify (set_attr_native_value (zone_batteryLevel (zone device))).

(** [TechBatterySensor(device, api, udid)].  [_name] and
    [_attr_native_value] do not exist before [update_properties] assigns
    them; an object whose constructor raises is never seen. *)
Definition new (device : Device) (api : Api) (udid : string) : result t :=
  let self :=
    {| _udid := udid; _api := api; _id := zone_id (zone device);
       _unique_id := (udid ++ "_" ++ Py.str (zone_id (zone device)))%string;
       _name := EmptyString; _attr_native_value := None |} in
  match update_properties device self with
  | (self', Ok _) => Ok self'
  | (_, Raise e) => Raise e
  end.

Definition unique_id (self : t) : string :=
  (_unique_id self ++ "_battery")%string.

Definition name (self : t) : string :=
  (_name self ++ " battery")%string.

Definition async_update : M t unit :=
  self <- get ;;
  device <- lift (get_zone (_api self) (_udid self) (_id self)) ;;
  update_properties device.

End TechBatterySensor.

Module TechTemperatureSensor.

Record t : Type := {
  _udid : string;
  _api : Api;
  _id : Z;
  _unique_id : string;
  _name : string;
  _attr_native_value : option Py.float
}.

Definition set_name (v : string) (self : t) : t :=
  {| _udid := _udid self; _api := _api self; _id := _id self;
     _unique_id := _unique_id self; _name := v;
     _attr_native_value := _attr_native_value self |}.

Definition set_attr_native_value (v : option Py.float) (self : t) : t :=
  {| _udid := _udid self; _api := _api self; _id := _id self;
     _unique_id := _unique_id self; _name := _name self;
     _attr_native_value := v |}.

Definition update_properties (device : Device) : M t unit :=
  modify (set_name (description_name (description device))) ;;
  match zone_currentTemperature (zone device) with
  | Some raw =>
      v <- lift (Py.truediv raw 10) ;;
      modify (set_attr_native_value (Some v))
  | None => modify (set_attr_native_value None)
  end.

(** [TechTemperatureSensor(device, api, udid)] *)
Definition new (device : Device) (api : Api) (udid : string) : result t :=
  let self :=
    {| _udid := udid; _api := api; _id := zone_id (zone device);
       _unique_id := (udid ++ "_" ++ Py.str (zone_id (zone device)))%string;
       _name := EmptyString; _attr_native_value := None |} in
  match update_properties device self with
  | (self', Ok _) => Ok self'
  | (_, Raise e) => Raise e
  end.

Definition unique_id (self : t) : string :=
  (_unique_id self ++ "_temperature")%string.

Definition name (self : t) : string :=
  (_name self ++ " temperature")%string.

Definition async_update : M t unit :=
  self <- get ;;
  device <- lift (get_zone (_api self) (_udid self) (_id self)) ;;
  update_properties device.

End TechTemperatureSensor.

Module TechHumiditySensor.

Record t : Type := {
  _udid : string;
  _api : Api;
  _id : Z;
  _unique_id : string;
  _name : string;
  _attr_native_value : option Z
}.

Definition set_name (v : string) (self : t) : t :=
  {| _udid := _udid self; _api := _api self; _id := _id self;
     _unique_id := _unique_id self; _name := v;
     _attr_native_value := _attr_native_value self |}.

Definition set_attr_native_value (v : option Z) (self : t) : t :=
  {| _udid := _udid self; _api := _api self; _id := _id self;
     _unique_id := _unique_id self; _name := _name self;
     _attr_native_value := v |}.

Definition update_properties (device : Device) : M t unit :=
  modify (set_name (description_name (description device))) ;;
  if Py.ne (zone_humidity (zone device)) 0
  then modify (set_attr_native_value (zone_humidity (zone device)))
  else modify (set_attr_native_value None).

(** [TechHumiditySensor(device, api, udid)] *)
Definition new (device : Device) (api : Api) (udid : string) : result t :=
  let self :=
    {| _udid := udid; _api := api; _id := zone_id (zone device);
       _unique_id := (udid ++ "_" ++ Py.str (zone_id (zone device)))%string;
       _name := EmptyString; _attr_native_value := None |} in
  match update_properties device self with
  | (self', Ok _) => Ok self'
  | (_, Raise e) => Raise e
  end.

Definition unique_id (self : t) : string :=
  ("climate_" ++ _unique_id self ++ "_humidity")%string.

Definition name (self : t) : string :=
  (_name self ++ " humidity")%string.

Definition async_update : M t unit :=
  self <- get ;;
  device <- lift (get_zone (_api self) (_udid self) (_id self)) ;;
  update_properties device.

End TechHumiditySensor.

(** ** Entities of any kind *)

Inductive SensorEntity : Type :=
| Battery (s : TechBatterySensor.t)
| Temperature (s : TechTemperatureSensor.t)
| Humidity (s : TechHumiditySensor.t).

Inductive Kind : Type := BATTERY | TEMPERATURE | HUMIDITY.

(** What an entity shows as its state: nothing, an [int] or a [float]. *)
Inductive NativeValue : Type :=
| Unknown
| IntValue (z : Z)
| FloatValue (f : Py.float).

Module Entity.

Definition kind (e : SensorEntity) : Kind :=
  match e with
  | Battery _ => BATTERY
  | Temperature _ => TEMPERATURE
  | Humidity _ => HUMIDITY
  end.

Definition udid (e : SensorEntity) : string :=
  match e with
  | Battery s => TechBatterySensor._udid s
  | Temperature s => TechTemperatureSensor._udid s
  | Humidity s => TechHumiditySensor._udid s
  end.

Definition api (e : SensorEntity) : Api :=
  match e with
  | Battery s => TechBatterySensor._api s
  | Temperature s => TechTemperatureSensor._api s
  | Humidity s => TechHumiditySensor._api s
  end.

Definition id (e : SensorEntity) : Z :=
  match e with
  | Battery s => TechBatterySensor._id s
  | Temperature s => TechTemperatureSensor._id s
  | Humidity s => TechHumiditySensor._id s
  end.

Definition unique_id (e : SensorEntity) : string :=
  match e with
  | Battery s => TechBatterySensor.unique_id s
  | Temperature s => TechTemperatureSensor.unique_id s
  | Humidity s => TechHumiditySensor.unique_id s
  end.

Definition name (e : SensorEntity) : string :=
  match e with
  | Battery s => TechBatterySensor.name s
  | Temperature s => TechTemperatureSensor.name s
  | Humidity s => TechHumiditySensor.name s
  end.

Definition native_value (e : SensorEntity) : NativeValue :=
  match e with
  | Battery s =>
      match TechBatterySensor._attr_native_value s with
      | Some z => IntValue z
      | None => Unknown
      end
  | Temperature s =>
      match TechTemperatureSensor._attr_native_value s with
      | Some f => FloatValue f
      | None => Unknown
      end
  | Humidity s =>
      match TechHumiditySensor._attr_native_value s with
      | Some z => IntValue z
      | None => Unknown
      end
  end.

(** Running a method of the entity's own class. *)
Definition within {S A} (inj : S -> SensorEntity) (c : M S A) (s : S)
  : SensorEntity * result A :=
  let (s', r) := c s in (inj s', r).

Definition update_properties (device : Device) : M SensorEntity unit :=
  fun e =>
    match e with
    | Battery s => within Battery (TechBatterySensor.update_properties device) s
    | Temperature s =>
        within Temperature (TechTemperatureSensor.update_properties device) s
    | Humidity s => within Humidity (TechHumiditySensor.update_properties device) s
    end.

Definition async_update : M SensorEntity unit :=
  fun e =>
    match e with
    | Battery s => within Battery TechBatterySensor.async_update s
    | Temperature s => within Temperature TechTemperatureSensor.async_update s
    | Humidity s => within Humidity TechHumiditySensor.async_update s
    end.

(** Calling the constructor of the class of the given kind. *)
Definition new (k : Kind) (device : Device) (api : Api) (udid : string)
  : result SensorEntity :=
  match k with
  | BATTERY => s <- TechBatterySensor.new device api udid ;; ret (Battery s)
  | TEMPERATURE =>
      s <- TechTemperatureSensor.new device api udid ;; ret (Temperature s)
  | HUMIDITY => s <- TechHumiditySensor.new device api udid ;; ret (Humidity s)
  end.

End Entity.

(** ** Setup: classification of the zones and construction of the entities *)

Definition is_battery_operating_device (device : Device) : bool :=
  Py.is_not_None (zone_batteryLevel (zone device)).

Definition map_to_battery_sensors (zones : Py.dict Device) (api : Api)
    (udid : string) : Py.iter SensorEntity :=
  let devices :=
    Py.filter (fun deviceIndex =>
                 device <- Py.getitem zones deviceIndex ;;
                 ret (is_battery_operating_device device))
              (Py.iter_dict zones) in
  Py.map (fun deviceIndex =>
            device <- Py.getitem zones deviceIndex ;;
            Entity.new BATTERY device api udid)
         devices.

Definition map_to_temperature_sensors (zones : Py.dict Device) (api : Api)
    (udid : string) : Py.iter SensorEntity :=
  Py.map (fun deviceIndex =>
            device <- Py.getitem zones deviceIndex ;;
            Entity.new TEMPERATURE device api udid)
         (Py.iter_dict zones).

Definition is_humidity_operating_device (device : Device) : bool :=
  Py.is_not_None (zone_humidity (zone device)).

Definition map_to_humidity_sensors (zones : Py.dict Device) (api : Api)
    (udid : string) : Py.iter SensorEntity :=
  let devices :=
    Py.filter (fun deviceIndex =>
                 device <- Py.getitem zones deviceIndex ;;
                 ret (is_humidity_operating_device device))
              (Py.iter_dict zones) in
  Py.map (fun deviceIndex =>
            device <- Py.getitem zones deviceIndex ;;
            Entity.new HUMIDITY device api udid)
         devices.

(** [async_setup_entry].  [api] and [udid] are the values read from
    [hass.data] and [config_entry.data]; [async_add_entities] is the
    callback of the host, which runs on the host's state [H]. *)
Definition async_setup_entry {H : Type} (api : Api) (udid : string)
    (async_add_entities : Py.iter SensorEntity -> bool -> M H unit)
    : M H unit :=
  zones <- lift (get_module_zones api udid) ;;
  let battery_devices := map_to_battery_sensors zones api udid in
  let temperature_sensors := map_to_temperature_sensors zones api udid in
  let humidity_sensors := map_to_humidity_sensors zones api udid in
  async_add_entities
    (Py.chain [battery_devices; temperature_sensors; humidity_sensors])
    true.

(** A host that only records the registration calls it receives, oldest
    first. *)
Module Host.

Record call : Type := {
  new_entities : Py.iter SensorEntity;
  update_before_add : bool
}.

Definition t : Type := list call.

Definition async_add_entities (new_entities : Py.iter SensorEntity)
    (update_before_add : bool) : M t unit :=
  modify (fun calls =>
    calls ++ [{| new_entities := new_entities;
                 update_before_add := update_before_add |}]).

End Host.

(** ** Well-formed input *)

(** The zones of a module as [get_module_zones] returns them: a [dict],
    whose keys are therefore pairwise distinct, keyed by zone id. *)
Definition module_zones_ok (zones : Py.dict Device) : Prop :=
  NoDup (Py.keys zones) /\
  Forall (fun kv => zone_id (zone (snd kv)) = fst kv) zones.

(** A temperature reading whose tenth is within the range of a float. *)
Definition finite_reading (device : Device) : Prop :=
  match zone_currentTemperature (zone device) with
  | Some raw => Z.abs raw < Py.overflow_threshold * 10
  | None => True
  end.

(** Whether [e] is the entity of kind [k] of the zone with id [zid]. *)
Definition belongs (k : Kind) (zid : Z) (e : SensorEntity) : bool :=
  match k, Entity.kind e with
  | BATTERY, BATTERY | TEMPERATURE, TEMPERATURE | HUMIDITY, HUMIDITY =>
      Entity.id e =? zid
  | _, _ => false
  end.

(** The number of entities of kind [k] in [entities] that belong to the zone
    with id [zid]. *)
Definition entities_of (k : Kind) (zid : Z) (entities : list SensorEntity)
  : nat :=
  List.length (List.filter (belongs k zid) entities).

(** The entity each constructor returns, written out. *)
Definition battery_of (device : Device) (api : Api) (udid : string)
  : TechBatterySensor.t :=
  {| TechBatterySensor._udid := udid;
     TechBatterySensor._api := api;
     TechBatterySensor._id := zone_id (zone device);
     TechBatterySensor._unique_id :=
       (udid ++ "_" ++ Py.str (zone_id (zone device)))%string;
     TechBatterySensor._name := description_name (description device);
     TechBatterySensor._attr_native_value := zone_batteryLevel (zone device) |}.

Definition temperature_of (device : Device) (api : Api) (udid : string)
  : TechTemperatureSensor.t :=
  {| TechTemperatureSensor._udid := udid;
     TechTemperatureSensor._api := api;
     TechTemperatureSensor._id := zone_id (zone device);
     TechTemperatureSensor._unique_id :=
       (udid ++ "_" ++ Py.str (zone_id (zone device)))%string;
     TechTemperatureSensor._name := description_name (description device);
     TechTemperatureSensor._attr_native_value :=
       option_map (fun raw => Py.nearest_quotient raw 10)
                  (zone_currentTemperature (zone device)) |}.

Definition humidity_of (device : Device) (api : Api) (udid : string)
  : TechHumiditySensor.t :=
  {| TechHumiditySensor._udid := udid;
     TechHumiditySensor._api := api;
     TechHumiditySensor._id := zone_id (zone device);
     TechHumiditySensor._unique_id :=
       (udid ++ "_" ++ Py.str (zone_id (zone device)))%string;
     TechHumiditySensor._name := description_name (description device);
     TechHumiditySensor._attr_native_value :=
       match zone_humidity (zone device) with
       | Some 0 => None
       | raw => raw
       end |}.

Definition entity_of (k : Kind) (device : Device) (api : Api) (udid : string)
  : SensorEntity :=
  match k with
  | BATTERY => Battery (battery_of device api udid)
  | TEMPERATURE => Temperature (temperature_of device api udid)
  | HUMIDITY => Humidity (humidity_of device api udid)
  end.

(** Whether the constructor of kind [k] returns on [device]. *)
Definition constructible (k : Kind) (device : Device) : Prop :=
  match k with
  | TEMPERATURE => finite_reading device
  | _ => True
  end.

(** The identity of an entity: what the constructor assigns for good. *)
Definition identity (e : SensorEntity) : Kind * string * Z * string :=
  (Entity.kind e, Entity.udid e, Entity.id e, Entity.unique_id e).

(** What a temperature entity shows for a zone record. *)
Definition tenth_of_reading (device : Device) : option Py.float :=
  match zone_currentTemperature (zone device) with
  | Some raw => Some (Py.nearest_quotient raw 10)
  | None => None
  end.

(** [23.5], that is [47 * 2^-1], as a float. *)
Definition float_23_5 : Py.float := binary_normalize Py.prec Py.emax 47 (-1) false.

(** The entities to register, as items of one iterable: a Battery entity
    for each zone with a battery level, then a Temperature entity for each
    zone, then a Humidity entity for each zone with a humidity value, each
    group in the order of the zone collection. *)
Definition entities_in_order (zones : Py.dict Device) (api : Api)
    (udid : string) : Py.iter SensorEntity :=
  List.map (fun kv => Entity.new BATTERY (snd kv) api udid)
    (List.filter (fun kv => is_battery_operating_device (snd kv)) zones)
  ++ List.map (fun kv => Entity.new TEMPERATURE (snd kv) api udid) zones
  ++ List.map (fun kv => Entity.new HUMIDITY (snd kv) api udid)
       (List.filter (fun kv => is_humidity_operating_device (snd kv)) zones).

(** The unique id of an entity of each kind, as the spec writes it. *)
Definition unique_id_format (k : Kind) (udid : string) (zid : Z) : string :=
  match k with
  | BATTERY => udid ++ "_" ++ Py.str zid ++ "_battery"
  | TEMPERATURE => udid ++ "_" ++ Py.str zid ++ "_temperature"
  | HUMIDITY => "climate_" ++ udid ++ "_" ++ Py.str zid ++ "_humidity"
  end%string.

(** What a humidity entity is to show for a zone record: the raw percentage
    unless it is 0, and nothing when it is 0 (or absent). *)
Definition humidity_shown (device : Device) (v : option Z) : Prop :=
  match zone_humidity (zone device) with
  | Some raw => if raw =? 0 then v = None else v = Some raw
  | None => v = None
  end.

(** The displayed name of an entity of each kind, for a zone name. *)
Definition name_format (k : Kind) (zone_name : string) : string :=
  match k with
  | BATTERY => zone_name ++ " battery"
  | TEMPERATURE => zone_name ++ " temperature"
  | HUMIDITY => zone_name ++ " humidity"
  end%string.

(** A temperature reading whose tenth is too large for a float. *)
Definition out_of_range (device : Device) : Prop :=
  match zone_currentTemperature (zone device) with
  | Some raw => Py.overflow_threshold * 10 <= Z.abs raw
  | None => False
  end.

(** The iterable [async_setup_entry] builds from the zones. *)
Definition setup_iterable (zones : Py.dict Device) (api : Api)
    (udid : string) : Py.iter SensorEntity :=
  Py.chain [map_to_battery_sensors zones api udid;
            map_to_temperature_sensors zones api udid;
            map_to_humidity_sensors zones api udid].

(** The entities setup builds when every constructor returns, in order. *)
Definition entities_built (zones : Py.dict Device) (api : Api)
    (udid : string) : list SensorEntity :=
  List.map (fun kv => entity_of BATTERY (snd kv) api udid)
    (List.filter (fun kv => is_battery_operating_device (snd kv)) zones)
  ++ List.map (fun kv => entity_of TEMPERATURE (snd kv) api udid) zones
  ++ List.map (fun kv => entity_of HUMIDITY (snd kv) api udid)
       (List.filter (fun kv => is_humidity_operating_device (snd kv)) zones).

(** What an entity of each kind is to show for a zone record: the battery
    level as it is, the tenth of the temperature reading, the humidity
    unless it is 0; nothing where the record has [None]. *)
Definition shown_value (k : Kind) (device : Device) : NativeValue :=
  match k with
  | BATTERY =>
      match zone_batteryLevel (zone device) with
      | Some level => IntValue level
      | None => Unknown
      end
  | TEMPERATURE =>
      match zone_currentTemperature (zone device) with
      | Some raw => FloatValue (Py.nearest_quotient raw 10)
      | None => Unknown
      end
  | HUMIDITY =>
      match zone_humidity (zone device) with
      | Some raw => if raw =? 0 then Unknown else IntValue raw
      | None => Unknown
      end
  end.

(** ** Sample data

    A module with three zones: zone 7 reports everything, with a humidity
    of 0; zone 3 reports nothing; zone 9 has no battery. *)

Definition device_of (zid : Z) (battery temperature humidity : option Z)
    (name : string) : Device :=
  {| zone := {| zone_id := zid;
                zone_batteryLevel := battery;
                zone_currentTemperature := temperature;
                zone_humidity := humidity |};
     description := {| description_name := name |} |}.

Definition salon : Device := device_of 7 (Some 80) (Some 235) (Some 0) "Salon".
Definition hall : Device := device_of 3 None None None "Hall".
Definition bath : Device := device_of 9 None (Some 201) (Some 45) "Bath".

Definition sample_zones : Py.dict Device := [(7, salon); (3, hall); (9, bath)].

(** Zone 7 as it was at an earlier time. *)
Definition salon_before : Device :=
  device_of 7 (Some 95) (Some 180) (Some 52) "Living room".

(** Zone 7 while it reported nothing. *)
Definition salon_silent : Device := device_of 7 None None None "Zone 7".

(** A client that answers from [sample_zones]. *)
Definition sample_api : Api :=
  {| get_module_zones := fun _ => Ok sample_zones;
     get_zone := fun _ zid => Py.getitem sample_zones zid |}.

(** A client whose requests time out. *)
Definition failing_api : Api :=
  {| get_module_zones := fun _ => Raise (ClientError "timeout");
     get_zone := fun _ _ => Raise (ClientError "timeout") |}.

(** A zone whose reading is too large for a float. *)
Definition furnace : Device :=
  device_of 1 None (Some (2 ^ 1100)) None "Furnace".

(** A module that holds the furnace, and a client that answers every zone
    request with the furnace's record. *)
Definition furnace_zones : Py.dict Device := [(1, furnace); (9, bath)].

Definition furnace_api : Api :=
  {| get_module_zones := fun _ => Ok furnace_zones;
     get_zone := fun _ _ => Ok furnace |}.

(** Unfolding a method call down to the outcome of the request and of the
    division it depends on. *)
Ltac run_method :=
  unfold Entity.async_update, Entity.update_properties, Entity.within,
    TechBatterySensor.async_update, TechBatterySensor.update_properties,
    TechTemperatureSensor.async_update, TechTemperatureSensor.update_properties,
    TechHumiditySensor.async_update, TechHumiditySensor.update_properties,
    lift, get, modify;
  simpl.

(** ** Lemmas on the built-ins *)

Section Dicts.

Context {V : Type}.
Implicit Types (d : Py.dict V) (k : Z) (v : V).

Lemma getitem_head d k v : Py.getitem ((k, v) :: d) k = Ok v.
Proof. simpl. now rewrite Z.eqb_refl. Qed.

Lemma getitem_tail d k k' v :
  k' <> k -> Py.getitem ((k', v) :: d) k = Py.getitem d k.
Proof.
  intros Hne. simpl. destruct (Z.eqb_spec k' k); [contradiction | reflexivity].
Qed.

Lemma getitem_In d k v :
  NoDup (Py.keys d) -> In (k, v) d -> Py.getitem d k = Ok v.
Proof.
  induction d as [| [k' v'] d IH]; intros Hnd Hin; [destruct Hin |].
  inversion Hnd as [| ? ? Hnotin Hnd']; subst.
  destruct Hin as [Heq | Hin].
  - inversion Heq; subst. apply getitem_head.
  - rewrite getitem_tail; [now apply IH |].
    intros ->. apply Hnotin.
    change k with (fst (k, v)). now apply in_map.
Qed.

Lemma filter_none (p : Z * V -> bool) d :
  (forall kv, In kv d -> p kv = false) -> List.filter p d = [].
Proof.
  induction d as [| kv d IH]; intros Hall; [reflexivity |].
  simpl. rewrite (Hall kv (or_introl eq_refl)).
  apply IH. intros kv' Hin. apply Hall. now right.
Qed.

(** In a [dict], the entries under a key are one. *)
Lemma filter_key_unique d k v :
  NoDup (Py.keys d) -> In (k, v) d ->
  List.filter (fun kv => fst kv =? k) d = [(k, v)].
Proof.
  induction d as [| [k' v'] d IH]; intros Hnd Hin; [destruct Hin |].
  inversion Hnd as [| ? ? Hnotin Hnd']; subst.
  destruct Hin as [Heq | Hin]; simpl.
  - inversion Heq; subst. rewrite Z.eqb_refl. f_equal.
    apply filter_none. intros [k1 v1] Hin1. simpl.
    destruct (Z.eqb_spec k1 k); [subst | reflexivity].
    exfalso. apply Hnotin. change k with (fst (k, v1)). now apply in_map.
  - destruct (Z.eqb_spec k' k) as [-> | Hne].
    + exfalso. apply Hnotin. change k with (fst (k, v)). now apply in_map.
    + now apply IH.
Qed.

End Dicts.

Lemma filter_cons {A} (p : A -> result bool) (a : A) (it : Py.iter A) :
  Py.filter p (Ok a :: it)
  = match p a with
    | Ok true => [Ok a]
    | Ok false => []
    | Raise e => [Raise e]
    end ++ Py.filter p it.
Proof. reflexivity. Qed.

Lemma map_cons {A B} (f : A -> result B) (a : A) (it : Py.iter A) :
  Py.map f (Ok a :: it) = f a :: Py.map f it.
Proof. reflexivity. Qed.

Lemma iter_dict_cons {V} (k : Z) (v : V) (d : Py.dict V) :
  Py.iter_dict ((k, v) :: d) = Ok k :: Py.iter_dict d.
Proof. reflexivity. Qed.

Section Iterators.

Variable zones : Py.dict Device.
Hypothesis zones_dict : NoDup (Py.keys zones).

(** Filtering the keys of [zones] by a test on [zones[key]] keeps the
    keys of the entries that pass, in order. *)
Lemma filter_by_entry (p : Device -> bool) (entries : Py.dict Device) :
  incl entries zones ->
  Py.filter (fun deviceIndex =>
               device <- Py.getitem zones deviceIndex ;; ret (p device))
            (Py.iter_dict entries)
  = Py.iter_dict (List.filter (fun kv => p (snd kv)) entries).
Proof.
  induction entries as [| [k d] entries IH]; intros Hincl; [reflexivity |].
  assert (Hk : Py.getitem zones k = Ok d).
  { apply getitem_In; [exact zones_dict | apply Hincl; now left]. }
  assert (Hrest : incl entries zones).
  { intros kv Hin. apply Hincl. now right. }
  rewrite iter_dict_cons, filter_cons, (IH Hrest), Hk. simpl.
  destruct (p d); reflexivity.
Qed.

(** Mapping a function of [zones[key]] over keys of [zones]. *)
Lemma map_by_entry {B} (f : Device -> result B) (entries : Py.dict Device) :
  incl entries zones ->
  Py.map (fun deviceIndex =>
            device <- Py.getitem zones deviceIndex ;; f device)
         (Py.iter_dict entries)
  = List.map (fun kv => f (snd kv)) entries.
Proof.
  induction entries as [| [k d] entries IH]; intros Hincl; [reflexivity |].
  assert (Hk : Py.getitem zones k = Ok d).
  { apply getitem_In; [exact zones_dict | apply Hincl; now left]. }
  assert (Hrest : incl entries zones).
  { intros kv Hin. apply Hincl. now right. }
  rewrite iter_dict_cons, map_cons, (IH Hrest), Hk. reflexivity.
Qed.

Lemma incl_filter (p : Z * Device -> bool) : incl (List.filter p zones) zones.
Proof. intros kv Hin. now apply filter_In in Hin. Qed.

(** The three iterators, item by item. *)
Lemma map_to_battery_sensors_items api udid :
  map_to_battery_sensors zones api udid
  = List.map (fun kv => Entity.new BATTERY (snd kv) api udid)
      (List.filter (fun kv => is_battery_operating_device (snd kv)) zones).
Proof.
  unfold map_to_battery_sensors.
  rewrite filter_by_entry by apply incl_refl.
  apply map_by_entry, incl_filter.
Qed.

Lemma map_to_temperature_sensors_items api udid :
  map_to_temperature_sensors zones api udid
  = List.map (fun kv => Entity.new TEMPERATURE (snd kv) api udid) zones.
Proof. unfold map_to_temperature_sensors. apply map_by_entry, incl_refl. Qed.

Lemma map_to_humidity_sensors_items api udid :
  map_to_humidity_sensors zones api udid
  = List.map (fun kv => Entity.new HUMIDITY (snd kv) api udid)
      (List.filter (fun kv => is_humidity_operating_device (snd kv)) zones).
Proof.
  unfold map_to_humidity_sensors.
  rewrite filter_by_entry by apply incl_refl.
  apply map_by_entry, incl_filter.
Qed.

End Iterators.

Lemma collect_all_ok {A B} (f : A -> result B) (g : A -> B) (l : list A) :
  (forall a, In a l -> f a = Ok (g a)) ->
  Py.collect (List.map f l) = Ok (List.map g l).
Proof.
  induction l as [| a l IH]; intros Hall; [reflexivity |].
  simpl. rewrite (Hall a (or_introl eq_refl)). simpl.
  rewrite IH; [reflexivity |].
  intros a' Hin. apply Hall. now right.
Qed.

(** ** Lemmas on the constructors *)

Lemma truediv_finite (raw : Z) :
  Z.abs raw < Py.overflow_threshold * 10 ->
  Py.truediv raw 10 = Ok (Py.nearest_quotient raw 10).
Proof.
  intros Hlt. unfold Py.truediv.
  change (10 =? 0) with false. change (Z.abs 10) with 10. cbv iota.
  destruct (Z.leb_spec (Py.overflow_threshold * 10) (Z.abs raw)) as [Hle | _];
    [| reflexivity].
  exfalso. apply (Z.lt_irrefl (Z.abs raw)).
  eapply Z.lt_le_trans; eassumption.
Qed.

(** The threshold is sharp: just below it the quotient rounds to the
    largest float, at it the quotient rounds out of range. *)
Lemma overflow_threshold_sharp :
  Py.truediv (Py.overflow_threshold * 10 - 1) 10
  = Ok (S754_finite false (2 ^ 53 - 1) 971) /\
  Py.nearest_quotient (Py.overflow_threshold * 10) 10 = S754_infinity false /\
  Py.truediv (Py.overflow_threshold * 10) 10 = Raise OverflowError.
Proof. repeat split; vm_compute; reflexivity. Qed.

Lemma battery_new device api udid :
  TechBatterySensor.new device api udid = Ok (battery_of device api udid).
Proof. reflexivity. Qed.

Lemma humidity_new device api udid :
  TechHumiditySensor.new device api udid = Ok (humidity_of device api udid).
Proof.
  unfold TechHumiditySensor.new, TechHumiditySensor.update_properties,
    humidity_of.
  destruct (zone_humidity (zone device)) as [[| p | p] |]; reflexivity.
Qed.

Lemma temperature_new device api udid :
  finite_reading device ->
  TechTemperatureSensor.new device api udid
  = Ok (temperature_of device api udid).
Proof.
  unfold finite_reading, TechTemperatureSensor.new,
    TechTemperatureSensor.update_properties, temperature_of.
  destruct (zone_currentTemperature (zone device)) as [raw |]; intros Hfin;
    [| reflexivity].
  simpl. unfold lift. rewrite (truediv_finite _ Hfin). reflexivity.
Qed.

Lemma entity_new k device api udid :
  constructible k device ->
  Entity.new k device api udid = Ok (entity_of k device api udid).
Proof.
  destruct k; intros Hc; unfold Entity.new.
  - now rewrite battery_new.
  - now rewrite temperature_new by exact Hc.
  - now rewrite humidity_new.
Qed.

Lemma belongs_entity_of k zid device api udid :
  belongs k zid (entity_of k device api udid) = (zone_id (zone device) =? zid).
Proof. now destruct k. Qed.

(** ** Counting the entities of a zone *)

Lemma entities_of_entries k zid api udid (p : Device -> bool)
    (entries : Py.dict Device) :
  Forall (fun kv => zone_id (zone (snd kv)) = fst kv) entries ->
  entities_of k zid
    (List.map (fun kv => entity_of k (snd kv) api udid)
              (List.filter (fun kv => p (snd kv)) entries))
  = List.length
      (List.filter (fun kv => p (snd kv))
                   (List.filter (fun kv => fst kv =? zid) entries)).
Proof.
  unfold entities_of.
  induction 1 as [| [key d] entries Hkey _ IH]; [reflexivity |].
  simpl in Hkey. simpl.
  destruct (p d) eqn:Hp; simpl.
  - rewrite belongs_entity_of, Hkey.
    destruct (key =? zid); simpl; [rewrite Hp; simpl |]; now rewrite IH.
  - destruct (key =? zid); simpl; [rewrite Hp |]; exact IH.
Qed.

Lemma entities_of_zone k api udid (p : Device -> bool) zones zid device :
  module_zones_ok zones -> In (zid, device) zones ->
  entities_of k zid
    (List.map (fun kv => entity_of k (snd kv) api udid)
              (List.filter (fun kv => p (snd kv)) zones))
  = if p device then 1%nat else 0%nat.
Proof.
  intros [Hnd Hkeyed] Hin.
  rewrite entities_of_entries by exact Hkeyed.
  rewrite (filter_key_unique zones zid device Hnd Hin). simpl.
  now destruct (p device).
Qed.

Lemma sample_zones_ok : module_zones_ok sample_zones.
Proof.
  split.
  - repeat constructor; simpl; intuition discriminate.
  - repeat constructor.
Qed.

Lemma sample_zones_finite :
  Forall (fun kv => finite_reading (snd kv)) sample_zones.
Proof. repeat constructor; reflexivity. Qed.

(** * Setup *)

(** C7: for every zone list given to setup, a zone receives exactly one
    Battery entity if and only if its battery level is present (not [None]);
    a zone with an absent battery level receives none. *)
Theorem battery_entity_iff_battery_level
    (zones : Py.dict Device) (api : Api) (udid : string) :
  module_zones_ok zones ->
  exists entities,
    Py.collect (map_to_battery_sensors zones api udid) = Ok entities /\
    forall zid device, In (zid, device) zones ->
      (entities_of BATTERY zid entities = 1%nat
         <-> zone_batteryLevel (zone device) <> None) /\
      (zone_batteryLevel (zone device) = None ->
         entities_of BATTERY zid entities = 0%nat).
Proof.
  intros Hok.
  exists (List.map (fun kv => entity_of BATTERY (snd kv) api udid)
            (List.filter (fun kv => is_battery_operating_device (snd kv)) zones)).
  split.
  - rewrite map_to_battery_sensors_items by apply Hok.
    apply collect_all_ok. intros kv _. now apply entity_new.
  - intros zid device Hin.
    rewrite (entities_of_zone BATTERY api udid is_battery_operating_device
               zones zid device Hok Hin).
    unfold is_battery_operating_device.
    destruct (zone_batteryLevel (zone device)); simpl; repeat split;
      congruence.
Qed.

Lemma battery_entity_iff_battery_level_witness :
  module_zones_ok sample_zones /\
  exists entities,
    Py.collect (map_to_battery_sensors sample_zones sample_api "abc123")
    = Ok entities /\
    forall zid device, In (zid, device) sample_zones ->
      (entities_of BATTERY zid entities = 1%nat
         <-> zone_batteryLevel (zone device) <> None) /\
      (zone_batteryLevel (zone device) = None ->
         entities_of BATTERY zid entities = 0%nat).
Proof.
  split.
  - exact sample_zones_ok.
  - exact (battery_entity_iff_battery_level sample_zones sample_api "abc123"
             sample_zones_ok).
Defined.

(** A zone whose reading is too large for a float receives no Temperature
    entity: its constructor raises, and so does the run of the iterable. *)
Lemma huge_reading_zone_gets_no_temperature_entity :
  module_zones_ok furnace_zones /\
  In (1, furnace) furnace_zones /\
  map_to_temperature_sensors furnace_zones sample_api "abc123"
  = [Raise OverflowError; Ok (entity_of TEMPERATURE bath sample_api "abc123")] /\
  Py.collect (map_to_temperature_sensors furnace_zones sample_api "abc123")
  = Raise OverflowError.
Proof.
  split.
  - split; [repeat constructor; simpl; intuition discriminate
           | repeat constructor].
  - split; [now left |]. split; reflexivity.
Qed.

(** C8, amended: for every zone list given to setup whose temperature
    readings are absent or within the range of a float, every zone receives
    exactly one Temperature entity, whichever of its fields are present or
    absent. *)
Theorem every_zone_gets_one_temperature_entity
    (zones : Py.dict Device) (api : Api) (udid : string) :
  module_zones_ok zones ->
  Forall (fun kv => finite_reading (snd kv)) zones ->
  exists entities,
    Py.collect (map_to_temperature_sensors zones api udid) = Ok entities /\
    List.length entities = List.length zones /\
    forall zid device, In (zid, device) zones ->
      entities_of TEMPERATURE zid entities = 1%nat.
Proof.
  intros Hok Hfin.
  exists (List.map (fun kv => entity_of TEMPERATURE (snd kv) api udid) zones).
  split; [| split].
  - rewrite map_to_temperature_sensors_items by apply Hok.
    apply collect_all_ok. intros kv Hin. apply entity_new.
    exact (proj1 (Forall_forall _ _) Hfin kv Hin).
  - apply length_map.
  - intros zid device Hin.
    pose proof (entities_of_zone TEMPERATURE api udid (fun _ => true)
                  zones zid device Hok Hin) as Hcount.
    assert (Hall : List.filter (fun _ : Z * Device => true) zones = zones)
      by (apply forallb_filter_id; now apply forallb_forall).
    cbv beta in Hcount. rewrite Hall in Hcount. exact Hcount.
Qed.

Lemma every_zone_gets_one_temperature_entity_witness :
  module_zones_ok sample_zones /\
  Forall (fun kv => finite_reading (snd kv)) sample_zones /\
  exists entities,
    Py.collect (map_to_temperature_sensors sample_zones sample_api "abc123")
    = Ok entities /\
    List.length entities = List.length sample_zones /\
    forall zid device, In (zid, device) sample_zones ->
      entities_of TEMPERATURE zid entities = 1%nat.
Proof.
  split; [exact sample_zones_ok |].
  split; [exact sample_zones_finite |].
  exact (every_zone_gets_one_temperature_entity sample_zones sample_api
           "abc123" sample_zones_ok sample_zones_finite).
Defined.

(** A zone whose humidity is 0 receives a Humidity entity: zone 7 of the
    sample module does. *)
Lemma zero_humidity_zone_gets_humidity_entity :
  module_zones_ok sample_zones /\
  In (7, salon) sample_zones /\
  zone_humidity (zone salon) = Some 0 /\
  exists entities,
    Py.collect (map_to_humidity_sensors sample_zones sample_api "abc123")
    = Ok entities /\
    entities_of HUMIDITY 7 entities = 1%nat.
Proof.
  split; [exact sample_zones_ok |].
  split; [now left |].
  split; [reflexivity |].
  eexists. split; reflexivity.
Qed.

(** C1, amended: for every zone list given to setup, a zone receives exactly
    one Humidity entity if and only if its humidity value is present (not
    [None]), a value of 0 included; a zone whose humidity is absent
    receives none. *)
Theorem humidity_entity_iff_humidity_present
    (zones : Py.dict Device) (api : Api) (udid : string) :
  module_zones_ok zones ->
  exists entities,
    Py.collect (map_to_humidity_sensors zones api udid) = Ok entities /\
    forall zid device, In (zid, device) zones ->
      (entities_of HUMIDITY zid entities = 1%nat
         <-> zone_humidity (zone device) <> None) /\
      (zone_humidity (zone device) = None ->
         entities_of HUMIDITY zid entities = 0%nat).
Proof.
  intros Hok.
  exists (List.map (fun kv => entity_of HUMIDITY (snd kv) api udid)
            (List.filter (fun kv => is_humidity_operating_device (snd kv)) zones)).
  split.
  - rewrite map_to_humidity_sensors_items by apply Hok.
    apply collect_all_ok. intros kv _. now apply entity_new.
  - intros zid device Hin.
    rewrite (entities_of_zone HUMIDITY api udid is_humidity_operating_device
               zones zid device Hok Hin).
    unfold is_humidity_operating_device.
    destruct (zone_humidity (zone device)); simpl; repeat split; congruence.
Qed.

Lemma humidity_entity_iff_humidity_present_witness :
  module_zones_ok sample_zones /\
  exists entities,
    Py.collect (map_to_humidity_sensors sample_zones sample_api "abc123")
    = Ok entities /\
    forall zid device, In (zid, device) sample_zones ->
      (entities_of HUMIDITY zid entities = 1%nat
         <-> zone_humidity (zone device) <> None) /\
      (zone_humidity (zone device) = None ->
         entities_of HUMIDITY zid entities = 0%nat).
Proof.
  split.
  - exact sample_zones_ok.
  - exact (humidity_entity_iff_humidity_present sample_zones sample_api
             "abc123" sample_zones_ok).
Defined.

(** C9: setup hands the entities to the host in one registration call,
    Battery entities first, then Temperature entities, then Humidity
    entities, each group in the iteration order of the fetched zone
    collection.  Whatever the callback of the host is, setup amounts to
    calling it once on that iterable; a host that records its calls has
    one more call afterwards. *)
Theorem setup_registers_once_in_order
    (api : Api) (udid : string) (zones : Py.dict Device) :
  get_module_zones api udid = Ok zones ->
  NoDup (Py.keys zones) ->
  (forall (H : Type)
          (async_add_entities : Py.iter SensorEntity -> bool -> M H unit)
          (host : H),
      async_setup_entry api udid async_add_entities host
      = async_add_entities (entities_in_order zones api udid) true host) /\
  (forall calls : Host.t,
      async_setup_entry api udid Host.async_add_entities calls
      = (calls ++ [{| Host.new_entities := entities_in_order zones api udid;
                      Host.update_before_add := true |}],
         Ok tt)).
Proof.
  intros Hzones Hnd.
  assert (Hany : forall (H : Type)
            (async_add_entities : Py.iter SensorEntity -> bool -> M H unit)
            (host : H),
            async_setup_entry api udid async_add_entities host
            = async_add_entities (entities_in_order zones api udid) true host).
  { intros H f host. unfold async_setup_entry. simpl. unfold lift.
    rewrite Hzones. unfold Py.chain, entities_in_order. simpl.
    rewrite map_to_battery_sensors_items, map_to_temperature_sensors_items,
      map_to_humidity_sensors_items by exact Hnd.
    now rewrite app_nil_r. }
  split; [exact Hany |].
  intros calls. now rewrite Hany.
Qed.

Lemma setup_registers_once_in_order_witness :
  get_module_zones sample_api "abc123" = Ok sample_zones /\
  NoDup (Py.keys sample_zones) /\
  async_setup_entry sample_api "abc123" Host.async_add_entities []
  = ([{| Host.new_entities :=
           entities_in_order sample_zones sample_api "abc123";
         Host.update_before_add := true |}],
     Ok tt).
Proof.
  split; [reflexivity |].
  split; [exact (proj1 sample_zones_ok) |].
  exact (proj2 (setup_registers_once_in_order sample_api "abc123"
                  sample_zones eq_refl (proj1 sample_zones_ok)) []).
Defined.

(** * Entities *)

Lemma append_assoc (a b c : string) :
  ((a ++ b) ++ c = a ++ (b ++ c))%string.
Proof. induction a as [| ch a IH]; simpl; [reflexivity | now rewrite IH]. Qed.

(** C6: the unique id of a Battery entity is [{udid}_{zoneId}_battery], of
    a Temperature entity [{udid}_{zoneId}_temperature], and of a Humidity
    entity [climate_{udid}_{zoneId}_humidity]. *)
Theorem unique_id_of_new_entity
    (k : Kind) (device : Device) (api : Api) (udid : string)
    (e : SensorEntity) :
  Entity.new k device api udid = Ok e ->
  Entity.unique_id e = unique_id_format k udid (zone_id (zone device)).
Proof.
  destruct k; unfold Entity.new.
  - rewrite battery_new. simpl. intros [= <-]. simpl.
    unfold TechBatterySensor.unique_id. simpl. now rewrite !append_assoc.
  - unfold TechTemperatureSensor.new, TechTemperatureSensor.update_properties.
    destruct (zone_currentTemperature (zone device)) as [raw |]; simpl;
      unfold lift; [destruct (Py.truediv raw 10); simpl |];
      intros [= <-]; simpl;
      unfold TechTemperatureSensor.unique_id; simpl; now rewrite !append_assoc.
  - rewrite humidity_new. simpl. intros [= <-]. simpl.
    unfold TechHumiditySensor.unique_id. simpl. now rewrite !append_assoc.
Qed.

Lemma unique_id_of_new_entity_witness :
  (Entity.new BATTERY salon sample_api "abc123"
   = Ok (entity_of BATTERY salon sample_api "abc123") /\
   Entity.unique_id (entity_of BATTERY salon sample_api "abc123")
   = "abc123_7_battery") /\
  (Entity.new TEMPERATURE salon sample_api "abc123"
   = Ok (entity_of TEMPERATURE salon sample_api "abc123") /\
   Entity.unique_id (entity_of TEMPERATURE salon sample_api "abc123")
   = "abc123_7_temperature") /\
  (Entity.new HUMIDITY salon sample_api "abc123"
   = Ok (entity_of HUMIDITY salon sample_api "abc123") /\
   Entity.unique_id (entity_of HUMIDITY salon sample_api "abc123")
   = "climate_abc123_7_humidity").
Proof.
  split; [| split]; (split; [reflexivity |]).
  - exact (unique_id_of_new_entity BATTERY salon sample_api "abc123"
             (entity_of BATTERY salon sample_api "abc123") eq_refl).
  - exact (unique_id_of_new_entity TEMPERATURE salon sample_api "abc123"
             (entity_of TEMPERATURE salon sample_api "abc123") eq_refl).
  - exact (unique_id_of_new_entity HUMIDITY salon sample_api "abc123"
             (entity_of HUMIDITY salon sample_api "abc123") eq_refl).
Defined.

(** C2: when the [get_zone] request of a refresh raises, [async_update]
    raises that same exception and leaves the entity as it was, its stored
    name and native value included; this holds for the three kinds. *)
Theorem refresh_failure_propagates (e : SensorEntity) (x : exn) :
  get_zone (Entity.api e) (Entity.udid e) (Entity.id e) = Raise x ->
  Entity.async_update e = (e, Raise x).
Proof.
  destruct e as [s | s | s]; simpl; intros Hraise; run_method;
    rewrite Hraise; reflexivity.
Qed.

Lemma refresh_failure_propagates_witness :
  get_zone failing_api "abc123" 7 = Raise (ClientError "timeout") /\
  Entity.async_update (entity_of TEMPERATURE salon failing_api "abc123")
  = (entity_of TEMPERATURE salon failing_api "abc123",
     Raise (ClientError "timeout")).
Proof.
  split; [reflexivity |].
  exact (refresh_failure_propagates
           (entity_of TEMPERATURE salon failing_api "abc123")
           (ClientError "timeout") eq_refl).
Defined.

(** A refresh whose request returns a constructible record completes. *)
Lemma refresh_completes (e : SensorEntity) (device : Device) :
  get_zone (Entity.api e) (Entity.udid e) (Entity.id e) = Ok device ->
  constructible (Entity.kind e) device ->
  exists e', Entity.async_update e = (e', Ok tt).
Proof.
  destruct e as [s | s | s]; simpl; intros Hget Hc; run_method; rewrite Hget.
  - eexists; reflexivity.
  - unfold finite_reading in Hc.
    destruct (zone_currentTemperature (zone device)) as [raw |]; simpl.
    + unfold lift. rewrite (truediv_finite raw Hc). eexists; reflexivity.
    + eexists; reflexivity.
  - destruct (Py.ne (zone_humidity (zone device)) 0); eexists; reflexivity.
Qed.

(** C3: for every entity and every zone record a refresh returns, once
    [async_update] has completed the displayed name is the name of the
    fetched record with the suffix of the kind, the native value is the one
    derived from the fetched record, both as the constructor derives them
    from that record, and the identity (kind, module udid, zone id, unique
    id) is the one given at construction; none of [update_properties] and
    [async_update] modifies the identity, whether it returns or raises. *)
Theorem refresh_recomputes_and_keeps_identity (e : SensorEntity) :
  (forall device e',
      get_zone (Entity.api e) (Entity.udid e) (Entity.id e) = Ok device ->
      Entity.async_update e = (e', Ok tt) ->
      Entity.name e'
      = name_format (Entity.kind e) (description_name (description device)) /\
      Entity.native_value e' = shown_value (Entity.kind e) device /\
      (exists fresh,
          Entity.new (Entity.kind e) device (Entity.api e) (Entity.udid e)
          = Ok fresh /\
          Entity.name e' = Entity.name fresh /\
          Entity.native_value e' = Entity.native_value fresh) /\
      identity e' = identity e) /\
  (forall device,
      identity (fst (Entity.update_properties device e)) = identity e) /\
  identity (fst (Entity.async_update e)) = identity e.
Proof.
  split; [| split].
  - intros device e' Hget. destruct e as [s | s | s]; simpl in Hget |- *;
      run_method; rewrite Hget.
    + intros [= <-]. simpl.
      split; [reflexivity |].
      split; [now destruct (zone_batteryLevel (zone device)) |].
      split; [| reflexivity].
      eexists. split; [reflexivity |]. now split.
    + unfold TechTemperatureSensor.new, TechTemperatureSensor.update_properties.
      destruct (zone_currentTemperature (zone device)) as [raw |]; simpl.
      * unfold lift, Py.truediv. change (10 =? 0) with false. cbv iota.
        destruct (Py.overflow_threshold * Z.abs 10 <=? Z.abs raw); simpl;
          [discriminate |].
        intros [= <-]. simpl. repeat split.
        eexists. split; [reflexivity |]. now split.
      * intros [= <-]. simpl. repeat split.
        eexists. split; [reflexivity |]. now split.
    + unfold TechHumiditySensor.new, TechHumiditySensor.update_properties,
        Py.ne.
      simpl.
      destruct (zone_humidity (zone device)) as [raw |]; simpl.
      * destruct (raw =? 0); simpl; intros [= <-]; simpl; repeat split;
          eexists; (split; [reflexivity |]); now split.
      * intros [= <-]. simpl. repeat split.
        eexists. split; [reflexivity |]. now split.
  - intros device. destruct e as [s | s | s]; run_method; try reflexivity.
    + destruct (zone_currentTemperature (zone device)) as [raw |]; simpl;
        unfold lift; [destruct (Py.truediv raw 10) |]; reflexivity.
    + destruct (Py.ne (zone_humidity (zone device)) 0); reflexivity.
  - destruct e as [s | s | s]; run_method.
    + destruct (get_zone _ _ _); reflexivity.
    + destruct (get_zone _ _ _) as [device |]; [| reflexivity].
      destruct (zone_currentTemperature (zone device)) as [raw |]; simpl;
        unfold lift; [destruct (Py.truediv raw 10) |]; reflexivity.
    + destruct (get_zone _ _ _) as [device |]; [| reflexivity].
      destruct (Py.ne (zone_humidity (zone device)) 0); reflexivity.
Qed.

Lemma refresh_recomputes_and_keeps_identity_witness :
  get_zone sample_api "abc123" 7 = Ok salon /\
  (Entity.async_update (entity_of BATTERY salon_before sample_api "abc123")
   = (entity_of BATTERY salon sample_api "abc123", Ok tt) /\
   Entity.name (entity_of BATTERY salon sample_api "abc123")
   = "Salon battery" /\
   Entity.native_value (entity_of BATTERY salon sample_api "abc123")
   = IntValue 80 /\
   identity (entity_of BATTERY salon sample_api "abc123")
   = identity (entity_of BATTERY salon_before sample_api "abc123")) /\
  (Entity.async_update (entity_of TEMPERATURE salon_before sample_api "abc123")
   = (entity_of TEMPERATURE salon sample_api "abc123", Ok tt) /\
   Entity.name (entity_of TEMPERATURE salon sample_api "abc123")
   = "Salon temperature" /\
   Entity.native_value (entity_of TEMPERATURE salon sample_api "abc123")
   = FloatValue float_23_5 /\
   identity (entity_of TEMPERATURE salon sample_api "abc123")
   = identity (entity_of TEMPERATURE salon_before sample_api "abc123")) /\
  (Entity.async_update (entity_of HUMIDITY salon_before sample_api "abc123")
   = (entity_of HUMIDITY salon sample_api "abc123", Ok tt) /\
   Entity.name (entity_of HUMIDITY salon sample_api "abc123")
   = "Salon humidity" /\
   Entity.native_value (entity_of HUMIDITY salon sample_api "abc123")
   = Unknown /\
   identity (entity_of HUMIDITY salon sample_api "abc123")
   = identity (entity_of HUMIDITY salon_before sample_api "abc123")).
Proof.
  split; [reflexivity |].
  split; [| split]; (split; [reflexivity |]).
  - destruct (proj1 (refresh_recomputes_and_keeps_identity
                       (entity_of BATTERY salon_before sample_api "abc123"))
                    salon (entity_of BATTERY salon sample_api "abc123")
                    eq_refl eq_refl) as (Hname & Hvalue & _ & Hid).
    exact (conj Hname (conj Hvalue Hid)).
  - destruct (proj1 (refresh_recomputes_and_keeps_identity
                       (entity_of TEMPERATURE salon_before sample_api "abc123"))
                    salon (entity_of TEMPERATURE salon sample_api "abc123")
                    eq_refl eq_refl) as (Hname & Hvalue & _ & Hid).
    exact (conj Hname (conj Hvalue Hid)).
  - destruct (proj1 (refresh_recomputes_and_keeps_identity
                       (entity_of HUMIDITY salon_before sample_api "abc123"))
                    salon (entity_of HUMIDITY salon sample_api "abc123")
                    eq_refl eq_refl) as (Hname & Hvalue & _ & Hid).
    exact (conj Hname (conj Hvalue Hid)).
Defined.

(** * Values *)

(** Whenever the constructor of a Temperature entity returns, the value is
    the tenth of the reading, or nothing when there is no reading. *)
Lemma temperature_value_when_constructed
    (device : Device) (api : Api) (udid : string)
    (s : TechTemperatureSensor.t) :
  TechTemperatureSensor.new device api udid = Ok s ->
  TechTemperatureSensor._attr_native_value s = tenth_of_reading device.
Proof.
  unfold TechTemperatureSensor.new, TechTemperatureSensor.update_properties,
    tenth_of_reading.
  destruct (zone_currentTemperature (zone device)) as [raw |]; simpl.
  - unfold lift, Py.truediv.
    change (10 =? 0) with false. cbv iota.
    destruct (Py.overflow_threshold * Z.abs 10 <=? Z.abs raw); simpl;
      [discriminate | now intros [= <-]].
  - now intros [= <-].
Qed.

(** On a reading of [2^1100] a Temperature entity has no tenth to show:
    the constructor raises, and a refresh raises and leaves the value the
    entity had. *)
Lemma huge_reading_has_no_tenth :
  zone_currentTemperature (zone furnace) = Some (2 ^ 1100) /\
  TechTemperatureSensor.new furnace furnace_api "abc123" = Raise OverflowError /\
  get_zone furnace_api "abc123" 7 = Ok furnace /\
  TechTemperatureSensor.async_update (temperature_of salon furnace_api "abc123")
  = (TechTemperatureSensor.set_name "Furnace"
       (temperature_of salon furnace_api "abc123"),
     Raise OverflowError) /\
  TechTemperatureSensor._attr_native_value
    (TechTemperatureSensor.set_name "Furnace"
       (temperature_of salon furnace_api "abc123"))
  = Some float_23_5 /\
  Some float_23_5 <> tenth_of_reading furnace.
Proof.
  repeat split; try reflexivity.
  vm_compute. discriminate.
Qed.

(** C4, amended: for every zone record whose reading is absent or has a
    tenth within the range of a float, the native value of the Temperature
    entity is the reading divided by 10 when the reading is present and
    [None] when it is absent, at construction and after every refresh. *)
Theorem temperature_value_is_tenth_of_reading
    (device : Device) (api : Api) (udid : string) :
  finite_reading device ->
  (exists s,
      TechTemperatureSensor.new device api udid = Ok s /\
      TechTemperatureSensor._attr_native_value s = tenth_of_reading device) /\
  (forall self,
      get_zone (TechTemperatureSensor._api self)
               (TechTemperatureSensor._udid self)
               (TechTemperatureSensor._id self) = Ok device ->
      exists self',
        TechTemperatureSensor.async_update self = (self', Ok tt) /\
        TechTemperatureSensor._attr_native_value self'
        = tenth_of_reading device).
Proof.
  intros Hfin. split.
  - exists (temperature_of device api udid).
    split; [now apply temperature_new |].
    unfold tenth_of_reading. simpl.
    now destruct (zone_currentTemperature (zone device)).
  - intros self Hget. run_method. rewrite Hget.
    unfold finite_reading in Hfin. unfold tenth_of_reading.
    destruct (zone_currentTemperature (zone device)) as [raw |]; simpl.
    + unfold lift. rewrite (truediv_finite raw Hfin).
      eexists. split; reflexivity.
    + eexists. split; reflexivity.
Qed.

Lemma temperature_value_is_tenth_of_reading_witness :
  finite_reading salon /\
  get_zone sample_api "abc123" 7 = Ok salon /\
  tenth_of_reading salon = Some float_23_5 /\
  Py.SF2Q float_23_5 = Some (47 # 2)%Q /\
  (exists s,
      TechTemperatureSensor.new salon sample_api "abc123" = Ok s /\
      TechTemperatureSensor._attr_native_value s = tenth_of_reading salon) /\
  (exists self',
      TechTemperatureSensor.async_update
        (temperature_of salon_before sample_api "abc123") = (self', Ok tt) /\
      TechTemperatureSensor._attr_native_value self' = tenth_of_reading salon).
Proof.
  split; [reflexivity |].
  split; [reflexivity |].
  split; [reflexivity |].
  split; [reflexivity |].
  split.
  - exact (proj1 (temperature_value_is_tenth_of_reading salon sample_api
                    "abc123" eq_refl)).
  - exact (proj2 (temperature_value_is_tenth_of_reading salon sample_api
                    "abc123" eq_refl)
                 (temperature_of salon_before sample_api "abc123") eq_refl).
Defined.

(** C5: for every zone record, the native value of the Humidity entity is
    the raw humidity percentage when it is not 0 and [None] when it is 0,
    at construction and after every refresh. *)
Theorem humidity_value_is_raw_unless_zero
    (device : Device) (api : Api) (udid : string) :
  (exists s,
      TechHumiditySensor.new device api udid = Ok s /\
      humidity_shown device (TechHumiditySensor._attr_native_value s)) /\
  (forall self,
      get_zone (TechHumiditySensor._api self)
               (TechHumiditySensor._udid self)
               (TechHumiditySensor._id self) = Ok device ->
      exists self',
        TechHumiditySensor.async_update self = (self', Ok tt) /\
        humidity_shown device (TechHumiditySensor._attr_native_value self')).
Proof.
  split.
  - exists (humidity_of device api udid).
    split; [apply humidity_new |].
    unfold humidity_shown. simpl.
    destruct (zone_humidity (zone device)) as [[| p | p] |]; reflexivity.
  - intros self Hget. run_method. rewrite Hget.
    unfold humidity_shown, Py.ne.
    destruct (zone_humidity (zone device)) as [raw |]; simpl.
    + destruct (raw =? 0); simpl; eexists; split; reflexivity.
    + eexists; split; reflexivity.
Qed.

Lemma humidity_value_is_raw_unless_zero_witness :
  get_zone sample_api "abc123" 9 = Ok bath /\
  (humidity_shown bath (Some 45) /\ humidity_shown salon None) /\
  (exists s,
      TechHumiditySensor.new bath sample_api "abc123" = Ok s /\
      humidity_shown bath (TechHumiditySensor._attr_native_value s)) /\
  (exists self',
      TechHumiditySensor.async_update
        (humidity_of (device_of 9 None None (Some 0) "Bath") sample_api "abc123")
      = (self', Ok tt) /\
      humidity_shown bath (TechHumiditySensor._attr_native_value self')).
Proof.
  split; [reflexivity |].
  split; [split; reflexivity |].
  split.
  - exact (proj1 (humidity_value_is_raw_unless_zero bath sample_api "abc123")).
  - exact (proj2 (humidity_value_is_raw_unless_zero bath sample_api "abc123")
                 (humidity_of (device_of 9 None None (Some 0) "Bath")
                              sample_api "abc123")
                 eq_refl).
Defined.

(** On a reading too large for a float, what [update_properties] leaves
    depends on what the entity held: of two Temperature entities of the
    same identity, one keeps its 18.0 and the other its [None]. *)
Lemma update_properties_keeps_prior_value_on_huge_reading :
  identity (entity_of TEMPERATURE salon_before sample_api "abc123")
  = identity (entity_of TEMPERATURE salon_silent sample_api "abc123") /\
  Entity.native_value
    (fst (Entity.update_properties furnace
            (entity_of TEMPERATURE salon_before sample_api "abc123")))
  = FloatValue (Py.nearest_quotient 180 10) /\
  Entity.native_value
    (fst (Entity.update_properties furnace
            (entity_of TEMPERATURE salon_silent sample_api "abc123")))
  = Unknown /\
  Entity.native_value
    (fst (Entity.update_properties furnace
            (entity_of TEMPERATURE salon_before sample_api "abc123")))
  <> Entity.native_value
       (fst (Entity.update_properties furnace
               (entity_of TEMPERATURE salon_silent sample_api "abc123"))).
Proof.
  repeat split; try reflexivity.
  vm_compute. discriminate.
Qed.

(** C10, amended: [update_properties] is idempotent for every entity and
    record: applied again to the entity it left, it leaves that entity and
    ends the same way.  Applied with the same zone record to two entities of
    the same kind and identity, whatever their names and values were, it
    ends the same way on both and leaves both with the same name; it leaves
    both with the same native value whenever it returns, which it does for
    every Battery and Humidity entity and for a Temperature entity when the
    reading is absent or its tenth is within the range of a float. *)
Theorem update_properties_idempotent_and_stateless
    (e1 e2 : SensorEntity) (device : Device) :
  identity e1 = identity e2 ->
  Entity.update_properties device (fst (Entity.update_properties device e1))
  = Entity.update_properties device e1 /\
  snd (Entity.update_properties device e1)
  = snd (Entity.update_properties device e2) /\
  Entity.name (fst (Entity.update_properties device e1))
  = Entity.name (fst (Entity.update_properties device e2)) /\
  (snd (Entity.update_properties device e1) = Ok tt ->
   Entity.native_value (fst (Entity.update_properties device e1))
   = Entity.native_value (fst (Entity.update_properties device e2))) /\
  (constructible (Entity.kind e1) device ->
   snd (Entity.update_properties device e1) = Ok tt).
Proof.
  unfold identity.
  destruct e1 as [s1 | s1 | s1], e2 as [s2 | s2 | s2]; simpl;
    intros Hid; try discriminate Hid; run_method.
  - now repeat split.
  - unfold finite_reading.
    destruct (zone_currentTemperature (zone device)) as [raw |] eqn:Hraw;
      simpl.
    + unfold lift.
      destruct (Py.truediv raw 10) as [v |] eqn:Hdiv; simpl.
      * now repeat split.
      * repeat split; try discriminate.
        intros Hfin. rewrite (truediv_finite raw Hfin) in Hdiv. discriminate.
    + now repeat split.
  - destruct (Py.ne (zone_humidity (zone device)) 0) eqn:Hne; simpl;
      now repeat split.
Qed.

Lemma update_properties_idempotent_and_stateless_witness :
  identity (entity_of TEMPERATURE salon_before sample_api "abc123")
  = identity (entity_of TEMPERATURE salon_silent sample_api "abc123") /\
  constructible TEMPERATURE salon /\
  Entity.update_properties salon
    (entity_of TEMPERATURE salon_before sample_api "abc123")
  = (entity_of TEMPERATURE salon sample_api "abc123", Ok tt) /\
  Entity.update_properties salon
    (entity_of TEMPERATURE salon_silent sample_api "abc123")
  = (entity_of TEMPERATURE salon sample_api "abc123", Ok tt) /\
  Entity.update_properties salon
    (fst (Entity.update_properties salon
            (entity_of TEMPERATURE salon_before sample_api "abc123")))
  = Entity.update_properties salon
      (entity_of TEMPERATURE salon_before sample_api "abc123") /\
  Entity.native_value
    (fst (Entity.update_properties salon
            (entity_of TEMPERATURE salon_before sample_api "abc123")))
  = Entity.native_value
      (fst (Entity.update_properties salon
              (entity_of TEMPERATURE salon_silent sample_api "abc123"))).
Proof.
  split; [reflexivity |].
  split; [reflexivity |].
  split; [reflexivity |].
  split; [reflexivity |].
  destruct (update_properties_idempotent_and_stateless
              (entity_of TEMPERATURE salon_before sample_api "abc123")
              (entity_of TEMPERATURE salon_silent sample_api "abc123")
              salon eq_refl) as (Hidem & _ & _ & Hvalue & Hret).
  split; [exact Hidem |].
  exact (Hvalue (Hret eq_refl)).
Defined.

(** * Readings out of range

    The hypothesis [finite_reading] above cannot be dropped: on a reading
    of [2^1100] the division raises, so the constructor raises, and
    [update_properties] has assigned the name but not the value. *)
Lemma reading_out_of_range_raises :
  ~ finite_reading furnace /\
  TechTemperatureSensor.new furnace sample_api "abc123" = Raise OverflowError /\
  TechTemperatureSensor.update_properties furnace
    (temperature_of salon sample_api "abc123")
  = (TechTemperatureSensor.set_name "Furnace"
       (temperature_of salon sample_api "abc123"),
     Raise OverflowError).
Proof.
  split; [| split].
  - unfold finite_reading. simpl. apply Z.le_ngt. now apply Z.leb_le.
  - reflexivity.
  - reflexivity.
Qed.

(** * Further properties *)

(** ** Strings *)

Lemma append_cancel_l (a x y : string) :
  (a ++ x = a ++ y)%string -> x = y.
Proof.
  induction a as [| ch a IH]; simpl; [trivial |].
  intros [= Heq]. now apply IH.
Qed.

Lemma length_append (a b : string) :
  String.length (a ++ b) = (String.length a + String.length b)%nat.
Proof. induction a as [| ch a IH]; simpl; [reflexivity | now rewrite IH]. Qed.

(** Two strings with endings of the same length agree on both parts. *)
Lemma append_split (a b s t : string) :
  String.length s = String.length t ->
  (a ++ s = b ++ t)%string -> a = b /\ s = t.
Proof.
  intros Hlen. revert b.
  induction a as [| ch a IH]; intros [| ch' b]; simpl; intros Heq.
  - now split.
  - exfalso. apply (f_equal String.length) in Heq. simpl in Heq.
    rewrite length_append in Heq. lia.
  - exfalso. apply (f_equal String.length) in Heq. simpl in Heq.
    rewrite length_append in Heq. lia.
  - injection Heq as Hch Hrest. destruct (IH b Hrest) as [-> ->].
    now subst.
Qed.

(** [str] can be read back: it is the text of one integer only. *)
Lemma str_inj (a b : Z) : Py.str a = Py.str b -> a = b.
Proof.
  unfold Py.str. intros Heq.
  assert (Hback : forall z,
             NilZero.int_of_string (NilZero.string_of_int (Z.to_int z))
             = Some (Z.to_int z)).
  { intros z. apply NilZero.isi; destruct z; simpl; try discriminate;
      intros [= Hnil]; now apply Unsigned.to_uint_nonnil in Hnil. }
  apply (f_equal NilZero.int_of_string) in Heq.
  rewrite !Hback in Heq. injection Heq as Heq.
  apply (f_equal Z.of_int) in Heq. now rewrite !DecimalZ.of_to in Heq.
Qed.

Lemma suffix_clash (x y s t : string) :
  String.length s = String.length t -> s <> t -> (x ++ s <> y ++ t)%string.
Proof.
  intros Hlen Hne Heq. apply Hne.
  exact (proj2 (append_split x y s t Hlen Heq)).
Qed.

(** ** Unique ids *)

(** Within a module, the format tells the kind and the zone id. *)
Lemma unique_id_format_inj (k1 k2 : Kind) (udid : string) (a b : Z) :
  unique_id_format k1 udid a = unique_id_format k2 udid b ->
  k1 = k2 /\ a = b.
Proof.
  assert (Hsame : forall suffix,
             (udid ++ "_" ++ Py.str a ++ suffix
              = udid ++ "_" ++ Py.str b ++ suffix)%string -> a = b).
  { intros suffix Heq. apply append_cancel_l in Heq. simpl in Heq.
    injection Heq as Heq.
    apply str_inj. exact (proj1 (append_split _ _ _ _ eq_refl Heq)). }
  assert (Hbat : forall z, (udid ++ "_" ++ Py.str z ++ "_battery"
             = ((udid ++ "_") ++ Py.str z) ++ "_battery")%string)
    by (intros z; now rewrite !append_assoc).
  assert (Htem : forall z, (udid ++ "_" ++ Py.str z ++ "_temperature"
             = (((udid ++ "_") ++ Py.str z) ++ "_tem") ++ "perature")%string)
    by (intros z; now rewrite !append_assoc).
  assert (Htem' : forall z, (udid ++ "_" ++ Py.str z ++ "_temperature"
             = (((udid ++ "_") ++ Py.str z) ++ "_te") ++ "mperature")%string)
    by (intros z; now rewrite !append_assoc).
  assert (Hhum : forall z, ("climate_" ++ udid ++ "_" ++ Py.str z ++ "_humidity"
             = (((("climate_" ++ udid) ++ "_") ++ Py.str z) ++ "_")
               ++ "humidity")%string)
    by (intros z; now rewrite !append_assoc).
  assert (Hhum' : forall z, ("climate_" ++ udid ++ "_" ++ Py.str z ++ "_humidity"
             = ((("climate_" ++ udid) ++ "_") ++ Py.str z) ++ "_humidity")%string)
    by (intros z; now rewrite !append_assoc).
  destruct k1, k2; unfold unique_id_format; intros Heq.
  - split; [reflexivity | exact (Hsame _ Heq)].
  - exfalso. rewrite Hbat, Htem in Heq.
    now apply suffix_clash in Heq.
  - exfalso. rewrite Hbat, Hhum in Heq.
    now apply suffix_clash in Heq.
  - exfalso. rewrite Htem, Hbat in Heq.
    now apply suffix_clash in Heq.
  - split; [reflexivity | exact (Hsame _ Heq)].
  - exfalso. rewrite Htem', Hhum' in Heq.
    now apply suffix_clash in Heq.
  - exfalso. rewrite Hhum, Hbat in Heq.
    now apply suffix_clash in Heq.
  - exfalso. rewrite Hhum', Htem' in Heq.
    now apply suffix_clash in Heq.
  - split; [reflexivity |].
    apply (append_cancel_l "climate_") in Heq. exact (Hsame _ Heq).
Qed.

(** ** What setup builds *)

Lemma collect_app {A} (it1 it2 : Py.iter A) :
  Py.collect (it1 ++ it2)
  = (xs <- Py.collect it1 ;; ys <- Py.collect it2 ;; ret (xs ++ ys)).
Proof.
  induction it1 as [| item it1 IH]; simpl.
  - now destruct (Py.collect it2).
  - destruct item as [x | e]; simpl; [| reflexivity].
    rewrite IH. destruct (Py.collect it1); simpl; [| reflexivity].
    now destruct (Py.collect it2).
Qed.

Lemma collect_app_inv {A} (it1 it2 : Py.iter A) (es : list A) :
  Py.collect (it1 ++ it2) = Ok es ->
  exists xs ys,
    Py.collect it1 = Ok xs /\ Py.collect it2 = Ok ys /\ es = xs ++ ys.
Proof.
  rewrite collect_app.
  destruct (Py.collect it1) as [xs |]; simpl; [| discriminate].
  destruct (Py.collect it2) as [ys |]; simpl; [| discriminate].
  intros [= <-]. now exists xs, ys.
Qed.

Lemma collect_map_inv {A B} (f : A -> result B) (g : A -> B) (l : list A)
    (es : list B) :
  (forall a e, In a l -> f a = Ok e -> e = g a) ->
  Py.collect (List.map f l) = Ok es -> es = List.map g l.
Proof.
  revert es. induction l as [| a l IH]; intros es Hinv; simpl.
  - now intros [= <-].
  - destruct (f a) as [e |] eqn:Hfa; simpl; [| discriminate].
    destruct (Py.collect (List.map f l)) as [es' |] eqn:Hrest; simpl;
      [| discriminate].
    intros [= <-]. f_equal.
    + apply Hinv; [now left | exact Hfa].
    + apply IH; [| reflexivity]. intros a' e' Hin. apply Hinv. now right.
Qed.

(** A constructor that returns, returns the entity written out above. *)
Lemma entity_new_inv k device api udid e :
  Entity.new k device api udid = Ok e -> e = entity_of k device api udid.
Proof.
  destruct k; unfold Entity.new.
  - rewrite battery_new. simpl. now intros [= <-].
  - unfold TechTemperatureSensor.new, TechTemperatureSensor.update_properties,
      entity_of, temperature_of.
    destruct (zone_currentTemperature (zone device)) as [raw |]; simpl.
    + unfold lift, Py.truediv. change (10 =? 0) with false. cbv iota.
      destruct (Py.overflow_threshold * Z.abs 10 <=? Z.abs raw); simpl;
        [discriminate | now intros [= <-]].
    + now intros [= <-].
  - rewrite humidity_new. simpl. now intros [= <-].
Qed.

(** [setup_iterable] is what [async_setup_entry] passes to the host. *)
Lemma setup_passes_setup_iterable (H : Type) (api : Api) (udid : string)
    (async_add_entities : Py.iter SensorEntity -> bool -> M H unit)
    (host : H) (zones : Py.dict Device) :
  get_module_zones api udid = Ok zones ->
  async_setup_entry api udid async_add_entities host
  = async_add_entities (setup_iterable zones api udid) true host.
Proof.
  intros Hzones. unfold async_setup_entry. simpl. unfold lift.
  now rewrite Hzones.
Qed.

Lemma setup_iterable_items zones api udid :
  NoDup (Py.keys zones) ->
  setup_iterable zones api udid = entities_in_order zones api udid.
Proof.
  intros Hnd. unfold setup_iterable, entities_in_order, Py.chain. simpl.
  rewrite map_to_battery_sensors_items, map_to_temperature_sensors_items,
    map_to_humidity_sensors_items by exact Hnd.
  now rewrite app_nil_r.
Qed.

(** When the iterable setup hands over can be run to its end, the entities
    it yields are one Battery entity per zone with a battery level, one
    Temperature entity per zone and one Humidity entity per zone with a
    humidity value, each carrying the zone's record, the client and the
    module udid. *)
Lemma setup_iterable_collects_entities_built
    (zones : Py.dict Device) (api : Api) (udid : string)
    (entities : list SensorEntity) :
  NoDup (Py.keys zones) ->
  Py.collect (setup_iterable zones api udid) = Ok entities ->
  entities = entities_built zones api udid.
Proof.
  intros Hnd. rewrite setup_iterable_items by exact Hnd.
  unfold entities_in_order, entities_built. intros Hall.
  apply collect_app_inv in Hall as (bs & rest & Hb & Hrest & ->).
  apply collect_app_inv in Hrest as (ts & hs & Ht & Hh & ->).
  apply (collect_map_inv _ (fun kv => entity_of BATTERY (snd kv) api udid))
    in Hb; [| intros a e _; apply entity_new_inv].
  apply (collect_map_inv _ (fun kv => entity_of TEMPERATURE (snd kv) api udid))
    in Ht; [| intros a e _; apply entity_new_inv].
  apply (collect_map_inv _ (fun kv => entity_of HUMIDITY (snd kv) api udid))
    in Hh; [| intros a e _; apply entity_new_inv].
  now subst.
Qed.

Lemma unique_id_entity_of k device api udid :
  Entity.unique_id (entity_of k device api udid)
  = unique_id_format k udid (zone_id (zone device)).
Proof.
  destruct k; simpl;
    unfold TechBatterySensor.unique_id, TechTemperatureSensor.unique_id,
      TechHumiditySensor.unique_id; simpl; now rewrite !append_assoc.
Qed.

(** X1: two entities constructed for the same module have the same unique
    id only if they are of the same kind and of the same zone id. *)
Theorem unique_id_tells_kind_and_zone
    (k1 k2 : Kind) (d1 d2 : Device) (api1 api2 : Api) (udid : string)
    (e1 e2 : SensorEntity) :
  Entity.new k1 d1 api1 udid = Ok e1 ->
  Entity.new k2 d2 api2 udid = Ok e2 ->
  Entity.unique_id e1 = Entity.unique_id e2 ->
  k1 = k2 /\ zone_id (zone d1) = zone_id (zone d2).
Proof.
  intros H1 H2 Heq.
  apply entity_new_inv in H1. apply entity_new_inv in H2. subst.
  rewrite !unique_id_entity_of in Heq.
  exact (unique_id_format_inj _ _ _ _ _ Heq).
Qed.

Lemma unique_id_tells_kind_and_zone_witness :
  Entity.new HUMIDITY salon sample_api "abc123"
  = Ok (entity_of HUMIDITY salon sample_api "abc123") /\
  Entity.new HUMIDITY salon_before failing_api "abc123"
  = Ok (entity_of HUMIDITY salon_before failing_api "abc123") /\
  Entity.unique_id (entity_of HUMIDITY salon sample_api "abc123")
  = Entity.unique_id (entity_of HUMIDITY salon_before failing_api "abc123") /\
  HUMIDITY = HUMIDITY /\ zone_id (zone salon) = zone_id (zone salon_before).
Proof.
  split; [reflexivity |].
  split; [reflexivity |].
  split; [reflexivity |].
  exact (unique_id_tells_kind_and_zone HUMIDITY HUMIDITY salon salon_before
           sample_api failing_api "abc123" _ _ eq_refl eq_refl eq_refl).
Defined.

Lemma group_unique_ids_distinct k api udid (p : Z * Device -> bool)
    (entries : Py.dict Device) :
  NoDup (Py.keys entries) ->
  Forall (fun kv => zone_id (zone (snd kv)) = fst kv) entries ->
  NoDup (List.map (fun kv => Entity.unique_id (entity_of k (snd kv) api udid))
           (List.filter p entries)).
Proof.
  intros Hnd Hkeyed. revert Hnd.
  induction Hkeyed as [| [key d] entries Hkey Hkeyed IH]; intros Hnd;
    simpl; [constructor |].
  inversion Hnd as [| ? ? Hnotin Hnd']; subst.
  destruct (p (key, d)); simpl; [| now apply IH].
  constructor; [| now apply IH].
  intros Hin. apply in_map_iff in Hin as ([key' d'] & Heq & Hin').
  apply filter_In in Hin' as [Hin' _].
  rewrite !unique_id_entity_of in Heq.
  apply unique_id_format_inj in Heq as [_ Hid]. simpl in Hid, Hkey.
  pose proof (proj1 (Forall_forall _ _) Hkeyed _ Hin') as Hkey'.
  simpl in Hkey'.
  apply Hnotin. replace key with key' by congruence.
  change key' with (fst (key', d')). now apply in_map.
Qed.

Lemma groups_unique_ids_apart k1 k2 api udid (l1 l2 : Py.dict Device) x :
  k1 <> k2 ->
  In x (List.map (fun kv => Entity.unique_id (entity_of k1 (snd kv) api udid)) l1) ->
  ~ In x (List.map (fun kv => Entity.unique_id (entity_of k2 (snd kv) api udid)) l2).
Proof.
  intros Hne Hin1 Hin2.
  apply in_map_iff in Hin1 as (kv1 & <- & _).
  apply in_map_iff in Hin2 as (kv2 & Heq & _).
  rewrite !unique_id_entity_of in Heq.
  apply unique_id_format_inj in Heq as [Hk _]. now apply Hne.
Qed.

(** X2: the entities setup yields for a module have pairwise distinct
    unique ids. *)
Theorem registered_unique_ids_distinct
    (zones : Py.dict Device) (api : Api) (udid : string)
    (entities : list SensorEntity) :
  module_zones_ok zones ->
  Py.collect (setup_iterable zones api udid) = Ok entities ->
  NoDup (List.map Entity.unique_id entities).
Proof.
  intros [Hnd Hkeyed] Hall.
  apply setup_iterable_collects_entities_built in Hall; [| exact Hnd].
  subst. unfold entities_built.
  rewrite !map_app, !map_map.
  assert (Hall : List.filter (fun _ : Z * Device => true) zones = zones)
    by (apply forallb_filter_id; now apply forallb_forall).
  apply NoDup_app; [| apply NoDup_app |].
  - now apply group_unique_ids_distinct.
  - rewrite <- Hall at 1. now apply group_unique_ids_distinct.
  - now apply group_unique_ids_distinct.
  - intros x. apply groups_unique_ids_apart. discriminate.
  - intros x Hin Hin'. apply in_app_or in Hin' as [Hin' | Hin'];
      revert Hin'; eapply groups_unique_ids_apart; try eassumption;
      discriminate.
Qed.

Lemma registered_unique_ids_distinct_witness :
  module_zones_ok sample_zones /\
  Py.collect (setup_iterable sample_zones sample_api "abc123")
  = Ok (entities_built sample_zones sample_api "abc123") /\
  NoDup (List.map Entity.unique_id
           (entities_built sample_zones sample_api "abc123")).
Proof.
  split; [exact sample_zones_ok |].
  split; [reflexivity |].
  exact (registered_unique_ids_distinct sample_zones sample_api "abc123"
           (entities_built sample_zones sample_api "abc123")
           sample_zones_ok eq_refl).
Defined.

(** X3: every entity setup yields was built from the record of a zone of
    the fetched collection, with the module udid and the client given to
    setup; a Battery entity only from a zone with a battery level, a
    Humidity entity only from a zone with a humidity value. *)
Theorem registered_entities_come_from_zones
    (zones : Py.dict Device) (api : Api) (udid : string)
    (entities : list SensorEntity) (e : SensorEntity) :
  NoDup (Py.keys zones) ->
  Py.collect (setup_iterable zones api udid) = Ok entities ->
  In e entities ->
  exists key device,
    In (key, device) zones /\
    e = entity_of (Entity.kind e) device api udid /\
    Entity.udid e = udid /\
    Entity.api e = api /\
    Entity.id e = zone_id (zone device) /\
    (Entity.kind e = BATTERY -> zone_batteryLevel (zone device) <> None) /\
    (Entity.kind e = HUMIDITY -> zone_humidity (zone device) <> None).
Proof.
  intros Hnd Hall Hin.
  apply setup_iterable_collects_entities_built in Hall; [| exact Hnd].
  subst entities. unfold entities_built in Hin.
  apply in_app_or in Hin as [Hin | Hin];
    [| apply in_app_or in Hin as [Hin | Hin]];
    apply in_map_iff in Hin as ([key device] & <- & Hin); simpl;
    try (apply filter_In in Hin as [Hin Hp]; simpl in Hp);
    exists key, device; repeat split; try assumption; try discriminate.
  - unfold is_battery_operating_device in Hp.
    intros _ Hnone. now rewrite Hnone in Hp.
  - unfold is_humidity_operating_device in Hp.
    intros _ Hnone. now rewrite Hnone in Hp.
Qed.

Lemma registered_entities_come_from_zones_witness :
  NoDup (Py.keys sample_zones) /\
  Py.collect (setup_iterable sample_zones sample_api "abc123")
  = Ok (entities_built sample_zones sample_api "abc123") /\
  In (entity_of HUMIDITY bath sample_api "abc123")
     (entities_built sample_zones sample_api "abc123") /\
  exists key device,
    In (key, device) sample_zones /\
    entity_of HUMIDITY bath sample_api "abc123"
    = entity_of HUMIDITY device sample_api "abc123" /\
    "abc123" = "abc123" /\
    sample_api = sample_api /\
    9 = zone_id (zone device) /\
    (HUMIDITY = BATTERY -> zone_batteryLevel (zone device) <> None) /\
    (HUMIDITY = HUMIDITY -> zone_humidity (zone device) <> None).
Proof.
  assert (Hin : In (entity_of HUMIDITY bath sample_api "abc123")
                   (entities_built sample_zones sample_api "abc123"))
    by (simpl; tauto).
  split; [exact (proj1 sample_zones_ok) |].
  split; [reflexivity |].
  split; [exact Hin |].
  exact (registered_entities_come_from_zones sample_zones sample_api "abc123"
           (entities_built sample_zones sample_api "abc123")
           (entity_of HUMIDITY bath sample_api "abc123")
           (proj1 sample_zones_ok) eq_refl Hin).
Defined.

(** ** Failures *)

(** X4: when [get_module_zones] raises, [async_setup_entry] raises the same
    exception and the callback of the host is not called: the state of the
    host is what it was, whatever the callback. *)
Theorem setup_failure_propagates
    (H : Type) (api : Api) (udid : string)
    (async_add_entities : Py.iter SensorEntity -> bool -> M H unit)
    (host : H) (x : exn) :
  get_module_zones api udid = Raise x ->
  async_setup_entry api udid async_add_entities host = (host, Raise x).
Proof.
  intros Hraise. unfold async_setup_entry. simpl. unfold lift.
  now rewrite Hraise.
Qed.

Lemma setup_failure_propagates_witness :
  get_module_zones failing_api "abc123" = Raise (ClientError "timeout") /\
  async_setup_entry failing_api "abc123" Host.async_add_entities []
  = ([], Raise (ClientError "timeout")).
Proof.
  split; [reflexivity |].
  exact (setup_failure_propagates Host.t failing_api "abc123"
           Host.async_add_entities [] (ClientError "timeout") eq_refl).
Defined.

Lemma truediv_out_of_range (raw : Z) :
  Py.overflow_threshold * 10 <= Z.abs raw ->
  Py.truediv raw 10 = Raise OverflowError.
Proof.
  intros Hle. unfold Py.truediv.
  change (10 =? 0) with false. change (Z.abs 10) with 10. cbv iota.
  now rewrite (proj2 (Z.leb_le _ _) Hle).
Qed.

Lemma finite_or_out_of_range (device : Device) :
  finite_reading device \/ out_of_range device.
Proof.
  unfold finite_reading, out_of_range.
  destruct (zone_currentTemperature (zone device)) as [raw |]; [| now left].
  destruct (Z.lt_ge_cases (Z.abs raw) (Py.overflow_threshold * 10));
    [now left | now right].
Qed.

Lemma out_of_range_reading_items (device : Device) (api : Api)
    (udid : string) :
  out_of_range device ->
  TechTemperatureSensor.new device api udid = Raise OverflowError /\
  forall self,
    TechTemperatureSensor.update_properties device self
    = (TechTemperatureSensor.set_name (description_name (description device))
         self,
       Raise OverflowError).
Proof.
  unfold out_of_range, TechTemperatureSensor.new,
    TechTemperatureSensor.update_properties.
  destruct (zone_currentTemperature (zone device)) as [raw |];
    [| contradiction].
  intros Hout. simpl. unfold lift, modify.
  rewrite (truediv_out_of_range raw Hout). now split.
Qed.

(** X5: on a record whose reading is too large for a float, the
    constructor of a Temperature entity raises [OverflowError], and
    [update_properties] raises it after assigning the new name and before
    assigning a value: the entity keeps its old value under the new name. *)
Theorem out_of_range_reading_raises
    (device : Device) (self : TechTemperatureSensor.t)
    (api : Api) (udid : string) :
  out_of_range device ->
  TechTemperatureSensor.new device api udid = Raise OverflowError /\
  TechTemperatureSensor.update_properties device self
  = (TechTemperatureSensor.set_name (description_name (description device)) self,
     Raise OverflowError).
Proof.
  intros Hout.
  destruct (out_of_range_reading_items device api udid Hout) as [Hnew Hupd].
  split; [exact Hnew | apply Hupd].
Qed.

Lemma out_of_range_reading_raises_witness :
  out_of_range furnace /\
  TechTemperatureSensor.new furnace sample_api "abc123" = Raise OverflowError /\
  TechTemperatureSensor.update_properties furnace
    (temperature_of salon sample_api "abc123")
  = (TechTemperatureSensor.set_name (description_name (description furnace))
       (temperature_of salon sample_api "abc123"),
     Raise OverflowError).
Proof.
  assert (Hout : out_of_range furnace) by (now apply Z.leb_le).
  split; [exact Hout |].
  exact (out_of_range_reading_raises furnace
           (temperature_of salon sample_api "abc123") sample_api "abc123" Hout).
Defined.

Lemma finite_not_out_of_range (device : Device) :
  finite_reading device -> out_of_range device -> False.
Proof.
  unfold finite_reading, out_of_range.
  destruct (zone_currentTemperature (zone device)) as [raw |]; [lia | trivial].
Qed.

Lemma temperature_items_raise api udid (entries : Py.dict Device) :
  Exists (fun kv => out_of_range (snd kv)) entries ->
  Py.collect
    (List.map (fun kv => Entity.new TEMPERATURE (snd kv) api udid) entries)
  = Raise OverflowError.
Proof.
  induction entries as [| [key d] entries IH]; intros Hex;
    [inversion Hex |].
  cbn [List.map Py.collect snd].
  destruct (finite_or_out_of_range d) as [Hfin | Hout].
  - rewrite entity_new by exact Hfin.
    inversion Hex as [? ? Hhead | ? ? Htail]; subst.
    + exfalso. exact (finite_not_out_of_range d Hfin Hhead).
    + now rewrite (IH Htail).
  - unfold Entity.new.
    now rewrite (proj1 (out_of_range_reading_items d api udid Hout)).
Qed.

Lemma battery_items_collect api udid (entries : Py.dict Device) :
  Py.collect
    (List.map (fun kv => Entity.new BATTERY (snd kv) api udid) entries)
  = Ok (List.map (fun kv => entity_of BATTERY (snd kv) api udid) entries).
Proof. apply collect_all_ok. intros kv _. now apply entity_new. Qed.

(** X6: one zone whose reading is too large for a float is enough for the
    iterable setup hands over to raise [OverflowError] when it is run to
    its end: no list of entities comes out of it. *)
Theorem registration_raises_on_out_of_range_reading
    (zones : Py.dict Device) (api : Api) (udid : string) :
  NoDup (Py.keys zones) ->
  Exists (fun kv => out_of_range (snd kv)) zones ->
  Py.collect (setup_iterable zones api udid) = Raise OverflowError.
Proof.
  intros Hnd Hex. rewrite setup_iterable_items by exact Hnd.
  unfold entities_in_order. rewrite !collect_app.
  rewrite battery_items_collect, (temperature_items_raise api udid zones Hex).
  reflexivity.
Qed.

Lemma registration_raises_on_out_of_range_reading_witness :
  NoDup (Py.keys [(1, furnace); (9, bath)]) /\
  Exists (fun kv => out_of_range (snd kv)) [(1, furnace); (9, bath)] /\
  Py.collect (setup_iterable [(1, furnace); (9, bath)] sample_api "abc123")
  = Raise OverflowError.
Proof.
  assert (Hnd : NoDup (Py.keys [(1, furnace); (9, bath)]))
    by (repeat constructor; simpl; intuition discriminate).
  assert (Hex : Exists (fun kv => out_of_range (snd kv))
                  [(1, furnace); (9, bath)])
    by (left; now apply Z.leb_le).
  split; [exact Hnd |].
  split; [exact Hex |].
  exact (registration_raises_on_out_of_range_reading
           [(1, furnace); (9, bath)] sample_api "abc123" Hnd Hex).
Defined.

(** X7: when the fetched record is well-typed, that is, carries every
    field with an [int] or [None] as [Device] has them, the only exceptions
    a refresh raises are the one the [get_zone] request raised, the entity
    being left as it was, and, for a Temperature entity, [OverflowError] on
    a fetched reading too large for a float.  (A record that lacks a key or
    holds a value of another type is outside [Device]; on such a record
    Python raises [KeyError] or [TypeError].) *)
Theorem refresh_raises_only (e e' : SensorEntity) (x : exn) :
  Entity.async_update e = (e', Raise x) ->
  (get_zone (Entity.api e) (Entity.udid e) (Entity.id e) = Raise x /\ e' = e)
  \/
  (Entity.kind e = TEMPERATURE /\ x = OverflowError /\
   exists device,
     get_zone (Entity.api e) (Entity.udid e) (Entity.id e) = Ok device /\
     out_of_range device).
Proof.
  destruct e as [s | s | s]; run_method.
  - destruct (get_zone _ _ _) as [device |]; [discriminate |].
    intros [= <- <-]. now left.
  - destruct (get_zone _ _ _) as [device |];
      [| intros [= <- <-]; now left].
    intros Hrun. right.
    destruct (finite_or_out_of_range device) as [Hfin | Hout].
    + exfalso. unfold finite_reading in Hfin. revert Hrun.
      destruct (zone_currentTemperature (zone device)) as [raw |]; simpl;
        [unfold lift; rewrite (truediv_finite raw Hfin) |]; discriminate.
    + repeat split; [| now exists device].
      pose proof (proj2 (out_of_range_reading_items device
                           (TechTemperatureSensor._api s) EmptyString Hout)
                        s) as Hupd.
      unfold TechTemperatureSensor.update_properties, modify in Hupd.
      simpl in Hupd. rewrite Hupd in Hrun. now injection Hrun as _ <-.
  - destruct (get_zone _ _ _) as [device |];
      [| intros [= <- <-]; now left].
    destruct (Py.ne (zone_humidity (zone device)) 0); discriminate.
Qed.

Lemma refresh_raises_only_witness :
  Entity.async_update (entity_of BATTERY salon failing_api "abc123")
  = (entity_of BATTERY salon failing_api "abc123",
     Raise (ClientError "timeout")) /\
  ((get_zone failing_api "abc123" 7 = Raise (ClientError "timeout") /\
    entity_of BATTERY salon failing_api "abc123"
    = entity_of BATTERY salon failing_api "abc123")
   \/
   (BATTERY = TEMPERATURE /\ ClientError "timeout" = OverflowError /\
    exists device,
      get_zone failing_api "abc123" 7 = Ok device /\ out_of_range device)).
Proof.
  split; [reflexivity |].
  exact (refresh_raises_only (entity_of BATTERY salon failing_api "abc123")
           (entity_of BATTERY salon failing_api "abc123")
           (ClientError "timeout") eq_refl).
Defined.

(** ** Refreshes *)

(** X8: a second refresh, run on the entity the first one left and given
    the same answer by the client, leaves that entity as it is and ends as
    the first did, whether the first returned or raised. *)
Theorem refresh_twice_is_refresh_once (e : SensorEntity) :
  Entity.async_update (fst (Entity.async_update e)) = Entity.async_update e.
Proof.
  destruct e as [s | s | s]; run_method.
  - destruct (get_zone _ _ _) as [device |] eqn:Hget; simpl;
      now rewrite Hget.
  - destruct (get_zone _ _ _) as [device |] eqn:Hget; simpl;
      [| now rewrite Hget].
    destruct (zone_currentTemperature (zone device)) as [raw |] eqn:Hraw;
      simpl.
    + unfold lift. destruct (Py.truediv raw 10) as [v |] eqn:Hdiv; simpl;
        rewrite Hget, Hraw; simpl; now rewrite Hdiv.
    + now rewrite Hget, Hraw.
  - destruct (get_zone _ _ _) as [device |] eqn:Hget; simpl;
      [| now rewrite Hget].
    destruct (Py.ne (zone_humidity (zone device)) 0) eqn:Hne; simpl;
      now rewrite Hget, Hne.
Qed.

(** X9: refreshing an entity with the record it was constructed from
    leaves it as it is; so does the refresh the host runs before adding the
    entity when the zone has not changed since setup. *)
Theorem refresh_with_same_record_changes_nothing
    (k : Kind) (device : Device) (api : Api) (udid : string)
    (e : SensorEntity) :
  Entity.new k device api udid = Ok e ->
  get_zone api udid (zone_id (zone device)) = Ok device ->
  Entity.async_update e = (e, Ok tt).
Proof.
  intros Hnew Hget.
  assert (Hc : constructible k device).
  { destruct k; simpl; trivial.
    destruct (finite_or_out_of_range device) as [Hfin | Hout]; [exact Hfin |].
    unfold Entity.new in Hnew.
    now rewrite (proj1 (out_of_range_reading_items device api udid Hout))
      in Hnew. }
  apply entity_new_inv in Hnew. subst e.
  destruct k; run_method; rewrite Hget.
  - reflexivity.
  - simpl in Hc. unfold finite_reading in Hc. unfold temperature_of.
    destruct (zone_currentTemperature (zone device)) as [raw |]; simpl.
    + unfold lift. now rewrite (truediv_finite raw Hc).
    + reflexivity.
  - unfold humidity_of.
    destruct (zone_humidity (zone device)) as [[| p | p] |]; reflexivity.
Qed.

Lemma refresh_with_same_record_changes_nothing_witness :
  Entity.new TEMPERATURE bath sample_api "abc123"
  = Ok (entity_of TEMPERATURE bath sample_api "abc123") /\
  get_zone sample_api "abc123" (zone_id (zone bath)) = Ok bath /\
  Entity.async_update (entity_of TEMPERATURE bath sample_api "abc123")
  = (entity_of TEMPERATURE bath sample_api "abc123", Ok tt).
Proof.
  split; [reflexivity |].
  split; [reflexivity |].
  exact (refresh_with_same_record_changes_nothing TEMPERATURE bath sample_api
           "abc123" (entity_of TEMPERATURE bath sample_api "abc123")
           eq_refl eq_refl).
Defined.

(** ** Names and values *)

(** X10: the native value of a Battery entity is the raw battery level of
    the record, at construction and after every refresh, which never raise
    on a fetched record; when the level of the zone becomes [None] the
    entity stays and shows nothing. *)
Theorem battery_value_is_raw_level
    (device : Device) (api : Api) (udid : string) :
  (exists s,
      TechBatterySensor.new device api udid = Ok s /\
      TechBatterySensor._attr_native_value s
      = zone_batteryLevel (zone device)) /\
  (forall self,
      get_zone (TechBatterySensor._api self)
               (TechBatterySensor._udid self)
               (TechBatterySensor._id self) = Ok device ->
      exists self',
        TechBatterySensor.async_update self = (self', Ok tt) /\
        TechBatterySensor._attr_native_value self'
        = zone_batteryLevel (zone device)).
Proof.
  split.
  - exists (battery_of device api udid). now split.
  - intros self Hget. run_method. rewrite Hget.
    eexists. split; reflexivity.
Qed.

Lemma battery_value_is_raw_level_witness :
  get_zone sample_api "abc123" 9 = Ok bath /\
  exists self',
    TechBatterySensor.async_update
      (battery_of (device_of 9 (Some 40) None None "Bath") sample_api "abc123")
    = (self', Ok tt) /\
    TechBatterySensor._attr_native_value self' = zone_batteryLevel (zone bath).
Proof.
  split; [reflexivity |].
  exact (proj2 (battery_value_is_raw_level bath sample_api "abc123")
               (battery_of (device_of 9 (Some 40) None None "Bath")
                           sample_api "abc123")
               eq_refl).
Defined.

(** X11: the displayed name of an entity is the name of the zone followed
    by [" battery"], [" temperature"] or [" humidity"], at construction and
    after every update of its properties that returns. *)
Theorem name_is_zone_name_and_kind
    (k : Kind) (device : Device) (api : Api) (udid : string)
    (e : SensorEntity) :
  (Entity.new k device api udid = Ok e ->
   Entity.name e = name_format k (description_name (description device))) /\
  (forall e',
      Entity.update_properties device e = (e', Ok tt) ->
      Entity.name e'
      = name_format (Entity.kind e) (description_name (description device))).
Proof.
  split.
  - intros Hnew. apply entity_new_inv in Hnew. subst e. now destruct k.
  - intros e'. destruct e as [s | s | s]; run_method.
    + now intros [= <-].
    + destruct (zone_currentTemperature (zone device)) as [raw |]; simpl;
        [unfold lift; destruct (Py.truediv raw 10); simpl |];
        now intros [= <-].
    + destruct (Py.ne (zone_humidity (zone device)) 0); now intros [= <-].
Qed.

Lemma name_is_zone_name_and_kind_witness :
  Entity.new HUMIDITY salon sample_api "abc123"
  = Ok (entity_of HUMIDITY salon sample_api "abc123") /\
  Entity.name (entity_of HUMIDITY salon sample_api "abc123")
  = "Salon humidity" /\
  Entity.update_properties salon
    (entity_of HUMIDITY salon_before sample_api "abc123")
  = (entity_of HUMIDITY salon sample_api "abc123", Ok tt).
Proof.
  split; [reflexivity |].
  split; [| reflexivity].
  exact (proj1 (name_is_zone_name_and_kind HUMIDITY salon sample_api "abc123"
                  (entity_of HUMIDITY salon sample_api "abc123"))
               eq_refl).
Defined.

(** X12: the iterable setup hands to the host has as many items as there
    are zones, plus the zones with a battery level, plus the zones with a
    humidity value: at least one per zone and at most three, and none for a
    module without zones. *)
Theorem setup_iterable_length
    (zones : Py.dict Device) (api : Api) (udid : string) :
  NoDup (Py.keys zones) ->
  List.length (setup_iterable zones api udid)
  = (List.length
       (List.filter (fun kv => is_battery_operating_device (snd kv)) zones)
     + List.length zones
     + List.length
         (List.filter (fun kv => is_humidity_operating_device (snd kv)) zones))%nat
  /\ (List.length zones <= List.length (setup_iterable zones api udid)
      <= 3 * List.length zones)%nat.
Proof.
  intros Hnd. rewrite setup_iterable_items by exact Hnd.
  unfold entities_in_order. rewrite !length_app, !length_map.
  pose proof (filter_length_le
                (fun kv => is_battery_operating_device (snd kv)) zones).
  pose proof (filter_length_le
                (fun kv => is_humidity_operating_device (snd kv)) zones).
  lia.
Qed.

Lemma setup_iterable_length_witness :
  NoDup (Py.keys sample_zones) /\
  List.length (setup_iterable sample_zones sample_api "abc123") = 6%nat /\
  setup_iterable [] sample_api "abc123" = [].
Proof.
  split; [exact (proj1 sample_zones_ok) |].
  split; [| reflexivity].
  exact (proj1 (setup_iterable_length sample_zones sample_api "abc123"
                  (proj1 sample_zones_ok))).
Defined.

(** X13: whatever a refresh fetches and whether it returns or raises, the
    entity keeps its client, module udid and zone id, the zone id of the
    fetched record being ignored: the next refresh sends the same request. *)
Theorem refresh_request_is_fixed (e : SensorEntity) :
  let e' := fst (Entity.async_update e) in
  Entity.api e' = Entity.api e /\
  Entity.udid e' = Entity.udid e /\
  Entity.id e' = Entity.id e /\
  get_zone (Entity.api e') (Entity.udid e') (Entity.id e')
  = get_zone (Entity.api e) (Entity.udid e) (Entity.id e).
Proof.
  assert (Hkeep : Entity.api (fst (Entity.async_update e)) = Entity.api e /\
                  Entity.udid (fst (Entity.async_update e)) = Entity.udid e /\
                  Entity.id (fst (Entity.async_update e)) = Entity.id e).
  { destruct e as [s | s | s]; run_method.
    - destruct (get_zone _ _ _); now repeat split.
    - destruct (get_zone _ _ _) as [device |]; [| now repeat split].
      destruct (zone_currentTemperature (zone device)) as [raw |]; simpl;
        unfold lift; [destruct (Py.truediv raw 10) |]; now repeat split.
    - destruct (get_zone _ _ _) as [device |]; [| now repeat split].
      destruct (Py.ne (zone_humidity (zone device)) 0); now repeat split. }
  cbv zeta. destruct Hkeep as (Hapi & Hudid & Hid).
  repeat split; try assumption. now rewrite Hapi, Hudid, Hid.
Qed.
